(** * metarun, [examples/simple/simple.py]: a shallow embedding

    The script trains a small feed-forward classifier on MNIST.  It is glue
    over TensorFlow, Keras and TensorFlow Datasets: the definitions below
    follow the script line by line, and the parts of the three libraries that
    the script calls are modelled next to it, each under a comment that
    names the library call whose documented behaviour it follows.  Where the
    releases of Keras differ in what the script can observe, the release is
    a parameter. *)

From Stdlib Require Import ZArith QArith Qabs Reals Lra Lia List Ascii String.
From Stdlib Require Import Floats.SpecFloat.
From stdpp Require Import gmap strings.
Import ListNotations.

Local Open Scope string_scope.
Local Open Scope Z_scope.

(** ** Python exceptions raised along the script's path

    An exception is modelled by its class; [KeyError] keeps the key.
    [InternalError] and [ResourceExhaustedError] stand for what the numeric
    engine may raise while it trains or evaluates. *)

Inductive exn :=
| AttributeError
| TypeError
| IndexError
| KeyError (key : string)
| ValueError
| RuntimeError
| InvalidArgumentError
| DatasetNotFoundError
| ConnectionError
| InternalError
| ResourceExhaustedError.

(** A call either raises ([inl]) or returns ([inr]). *)
Definition result (A : Type) : Type := (exn + A)%type.

Definition raise {A} (e : exn) : result A := inl e.
Definition ok {A} (a : A) : result A := inr a.

Definition rbind {A B} (r : result A) (k : A -> result B) : result B :=
  match r with
  | inl e => inl e
  | inr a => k a
  end.

Notation "'call' p <- r ; k" := (rbind r (fun p => k))
  (at level 60, p pattern, r at next level, right associativity,
   format "'[v' 'call'  p  <-  r ; '/' k ']'").

Fixpoint mapM_result {A B} (f : A -> result B) (l : list A) : result (list B) :=
  match l with
  | [] => ok []
  | a :: l' =>
      call b <- f a;
      call bs <- mapM_result f l';
      ok (b :: bs)
  end.

(** ** [HyperParams]  (lines 10-11)

    [namedtuple("HyperParams", ["batch_size", "epochs", "hidden_layers"])].
    The record below is what the script reads from it: the two integers
    (Python integers are unbounded, hence [Z]) and the contents of the list
    at the time of reading.  The object itself, with the list it refers
    to, is modelled further down. *)

Record HyperParams := {
  batch_size : Z;
  epochs : Z;
  hidden_layers : list Z
}.

(** ** Python objects: values, the heap, [namedtuple] *)

Definition loc := positive.

(** A value is an integer or a reference to an object. *)
Inductive value :=
| VInt (z : Z)
| VRef (l : loc).

(** The objects of interest: an instance of a namedtuple class with the
    values of its fields, a list, and an instance of an ordinary class with
    its attribute dictionary. *)
Inductive object :=
| OTuple (cls : string) (fields : list string) (items : list value)
| OList (items : list value)
| OInstance (attrs : gmap string value).

Record pyclass := {
  cls_name : string;
  cls_fields : list string
}.

Definition is_alpha (c : ascii) : bool :=
  let n := nat_of_ascii c in
  ((65 <=? n)%nat && (n <=? 90)%nat) || ((97 <=? n)%nat && (n <=? 122)%nat)
  || (n =? 95)%nat.

Definition is_digit (c : ascii) : bool :=
  let n := nat_of_ascii c in (48 <=? n)%nat && (n <=? 57)%nat.

Fixpoint all_chars (p : ascii -> bool) (s : string) : bool :=
  match s with
  | EmptyString => true
  | String c s' => p c && all_chars p s'
  end.

(** [str.isidentifier], on ASCII names. *)
Definition is_identifier (s : string) : bool :=
  match s with
  | EmptyString => false
  | String c s' => is_alpha c && all_chars (fun d => is_alpha d || is_digit d) s'
  end.

Definition python_keywords : list string :=
  ["False"; "None"; "True"; "and"; "as"; "assert"; "async"; "await";
   "break"; "class"; "continue"; "def"; "del"; "elif"; "else"; "except";
   "finally"; "for"; "from"; "global"; "if"; "import"; "in"; "is";
   "lambda"; "nonlocal"; "not"; "or"; "pass"; "raise"; "return"; "try";
   "while"; "with"; "yield"].

Definition is_keyword (s : string) : bool :=
  existsb (String.eqb s) python_keywords.

Definition starts_with_underscore (s : string) : bool :=
  match s with
  | String c _ => (nat_of_ascii c =? 95)%nat
  | EmptyString => false
  end.

Fixpoint no_duplicates (l : list string) : bool :=
  match l with
  | [] => true
  | s :: l' => negb (existsb (String.eqb s) l') && no_duplicates l'
  end.

(** [collections.namedtuple(typename, field_names)] with its default
    [rename=False]: every name must be an identifier and no keyword, a
    field name must not start with an underscore nor occur twice; else
    [ValueError]. *)
Definition namedtuple (typename : string) (field_names : list string)
  : result pyclass :=
  if forallb (fun s => is_identifier s && negb (is_keyword s))
             (typename :: field_names)
     && forallb (fun s => negb (starts_with_underscore s)) field_names
     && no_duplicates field_names
  then ok {| cls_name := typename; cls_fields := field_names |}
  else raise ValueError.

(** Allocation of a new object at an address not in use. *)
Definition alloc (h : gmap loc object) (o : object) : loc * gmap loc object :=
  let l := fresh (dom h) in (l, <[l := o]> h).

(** [cls(v1, ..., vn)]: as many arguments as fields, else [TypeError]. *)
Definition construct (cls : pyclass) (args : list value) (h : gmap loc object)
  : result (loc * gmap loc object) :=
  if (length args =? length (cls_fields cls))%nat
  then ok (alloc h (OTuple (cls_name cls) (cls_fields cls) args))
  else raise TypeError.

(** [[v1, ..., vn]]: a list display allocates a new list. *)
Definition new_list (items : list value) (h : gmap loc object)
  : loc * gmap loc object :=
  alloc h (OList items).

Fixpoint index_of (name : string) (fields : list string) : option nat :=
  match fields with
  | [] => None
  | f :: fields' =>
      if String.eqb name f then Some O
      else option_map S (index_of name fields')
  end.

(** Reading a data attribute, [obj.name]: [None] when [name] is not a data
    attribute of the object (methods are not part of this model). *)
Definition getfield (h : gmap loc object) (l : loc) (name : string)
  : option value :=
  match h !! l with
  | Some (OTuple _ fields items) =>
      match index_of name fields with
      | Some i => items !! i
      | None => None
      end
  | Some (OInstance attrs) => attrs !! name
  | _ => None
  end.

(** A sequence index: a negative one counts from the end. *)
Definition seq_index {A} (items : list A) (i : Z) : option nat :=
  let n := Z.of_nat (length items) in
  let j := if i <? 0 then i + n else i in
  if (0 <=? j) && (j <? n) then Some (Z.to_nat j) else None.

(** [obj[i]] on a tuple or a list. *)
Definition getitem_obj (h : gmap loc object) (l : loc) (i : Z) : result value :=
  match h !! l with
  | Some (OTuple _ _ items) | Some (OList items) =>
      match seq_index items i with
      | Some j => match items !! j with
                  | Some v => ok v
                  | None => raise IndexError
                  end
      | None => raise IndexError
      end
  | _ => raise TypeError
  end.

(** What a statement can do to an object in place. *)
Inductive mutation :=
| SetAttr (target : loc) (name : string) (v : value)
| SetItem (target : loc) (i : Z) (v : value)
| Append (target : loc) (v : value).

(** [target.name = v] stores into the instance dictionary where there is
    one.  A namedtuple class has [__slots__ = ()] and read-only properties
    for its fields, and a list has no dictionary either: [AttributeError].
    [target[i] = v] is supported by lists; tuples and plain instances give
    [TypeError].  [target.append(v)] is a method of lists only. *)
Definition mutate (m : mutation) (h : gmap loc object)
  : result (gmap loc object) :=
  match m with
  | SetAttr l name v =>
      match h !! l with
      | Some (OInstance attrs) => ok (<[l := OInstance (<[name := v]> attrs)]> h)
      | _ => raise AttributeError
      end
  | SetItem l i v =>
      match h !! l with
      | Some (OList items) =>
          match seq_index items i with
          | Some j => ok (<[l := OList (<[j := v]> items)]> h)
          | None => raise IndexError
          end
      | _ => raise TypeError
      end
  | Append l v =>
      match h !! l with
      | Some (OList items) => ok (<[l := OList (items ++ [v])]> h)
      | _ => raise AttributeError
      end
  end.

(** A run of statements, those that raise being caught: the heap after. *)
Fixpoint run_mutations (ms : list mutation) (h : gmap loc object)
  : gmap loc object :=
  match ms with
  | [] => h
  | m :: ms' =>
      match mutate m h with
      | inr h' => run_mutations ms' h'
      | inl _ => run_mutations ms' h
      end
  end.

Definition as_int (v : value) : option Z :=
  match v with VInt z => Some z | VRef _ => None end.

Fixpoint as_ints (vs : list value) : option (list Z) :=
  match vs with
  | [] => Some []
  | v :: vs' =>
      match as_int v, as_ints vs' with
      | Some z, Some zs => Some (z :: zs)
      | _, _ => None
      end
  end.

(** What the script reads from a [HyperParams] object at [l]: its two
    integers and the present contents of the list it refers to. *)
Definition read_hp (h : gmap loc object) (l : loc) : option HyperParams :=
  match getfield h l "batch_size", getfield h l "epochs",
        getfield h l "hidden_layers" with
  | Some (VInt b), Some (VInt e), Some (VRef r) =>
      match h !! r with
      | Some (OList items) =>
          match as_ints items with
          | Some widths =>
              Some {| batch_size := b; epochs := e; hidden_layers := widths |}
          | None => None
          end
      | _ => None
      end
  | _, _, _ => None
  end.

(** ** IEEE-754 binary32, the [tf.float32] of the script *)

Definition prec32 : Z := 24.
Definition emax32 : Z := 128.

Definition float32 := spec_float.

(** A Python float literal or an integer, converted to [tf.float32]. *)
Definition f32_of_Z (z : Z) : float32 := binary_normalize prec32 emax32 z 0 false.

Definition f32_div : float32 -> float32 -> float32 := SFdiv prec32 emax32.

(** [tf.cast(x, tf.float32)] on one [uint8] element. *)
Definition tf_cast_float32 (v : Z) : float32 := f32_of_Z v.

(** The exact rational a finite float denotes. *)
Definition f32_to_Q (x : float32) : option Q :=
  match x with
  | S754_zero _ => Some 0%Q
  | S754_finite s m e =>
      let mag := (inject_Z (Z.pos m) * Qpower 2 e)%Q in
      Some (if s then Qopp mag else mag)
  | _ => None
  end.

(** ** [normalize_img]  (lines 14-17)

    An image tensor is the list of its [uint8] elements (row-major); the
    cast and the division by the scalar [255.] act element by element. *)

Definition normalize_pixel (v : Z) : float32 :=
  f32_div (tf_cast_float32 v) (f32_of_Z 255).

Definition normalize_img {L : Type} (image : list Z) (label : L)
  : list float32 * L :=
  (map normalize_pixel image, label).


(** ** TensorFlow Datasets: builders, split instructions, [tfds.load] *)

(** One supervised example: the [uint8] image and its class index. *)
Definition example : Type := list Z * Z.

Record SplitInfo := { num_examples : Z }.
Record FeatureInfo := { shape : list Z }.

(** [info.splits] and [info.features] are dictionaries keyed by name. *)
Record DatasetInfo := {
  splits : gmap string SplitInfo;
  features : gmap string FeatureInfo
}.

(** A prepared dataset: the examples of every split, in stored order, and
    the shape of every feature. *)
Record Builder := {
  b_examples : gmap string (list example);
  b_features : gmap string FeatureInfo
}.

(** What the loader can do for a registered dataset name: hand out the
    data, from disk or after downloading and preparing it, or fail to get
    it.  A name that is absent from the catalog is not registered. *)
Inductive dataset_source :=
| Prepared (b : Builder)
| Unobtainable.

Definition builder_info (b : Builder) : DatasetInfo :=
  {| splits := (fun l => {| num_examples := Z.of_nat (length l) |}) <$> b_examples b;
     features := b_features b |}.

(** Dictionary subscript [d[key]]: [KeyError] when the key is absent. *)
Definition getitem {V} (d : gmap string V) (key : string) : result V :=
  match d !! key with
  | Some v => ok v
  | None => raise (KeyError key)
  end.

Inductive unit_kind := UnitPct | UnitAbs.

(** A relative read instruction, e.g. ['train[:90%]']. *)
Record ReadInstruction := {
  ri_split : string;
  ri_from : option Z;
  ri_to : option Z;
  ri_unit : unit_kind
}.

Fixpoint parse_digits (s : string) (acc : Z) : option Z :=
  match s with
  | EmptyString => Some acc
  | String c s' =>
      if is_digit c
      then parse_digits s' (10 * acc + Z.of_nat (nat_of_ascii c - 48))
      else None
  end.

Fixpoint split_at (c : ascii) (s : string) : option (string * string) :=
  match s with
  | EmptyString => None
  | String d s' =>
      if Ascii.eqb c d then Some (EmptyString, s')
      else match split_at c s' with
           | Some (l, r) => Some (String d l, r)
           | None => None
           end
  end.

(** One side of a slice: empty, [N] or [N%]. *)
Definition parse_boundary (s : string) : option (option (Z * unit_kind)) :=
  match s with
  | EmptyString => Some None
  | _ =>
      match split_at "%" s with
      | Some (EmptyString, _) => None
      | Some (ds, EmptyString) =>
          match parse_digits ds 0 with
          | Some n => Some (Some (n, UnitPct))
          | None => None
          end
      | Some _ => None
      | None =>
          match parse_digits s 0 with
          | Some n => Some (Some (n, UnitAbs))
          | None => None
          end
      end
  end.

Definition same_unit (u v : unit_kind) : bool :=
  match u, v with
  | UnitPct, UnitPct | UnitAbs, UnitAbs => true
  | _, _ => false
  end.

(** The split grammar as far as the script uses it: a bare split name, or
    [name[from:to]] with non-negative boundaries, both absolute or both in
    percent.  Anything else is reported as unrecognized, which for some
    forms the library accepts (mixed units, negative boundaries) is not
    what the library does; the script's three strings are not among
    them. *)
Definition parse_split (spec : string) : result ReadInstruction :=
  let bad := raise ValueError in
  match split_at "[" spec with
  | None =>
      if String.eqb spec "" then bad
      else ok {| ri_split := spec; ri_from := None; ri_to := None;
                 ri_unit := UnitAbs |}
  | Some (name, rest) =>
      match split_at "]" rest with
      | Some (sel, EmptyString) =>
          match split_at ":" sel with
          | Some (l, r) =>
              match parse_boundary l, parse_boundary r with
              | Some None, Some None => bad
              | Some fb, Some tb =>
                  let u := match fb, tb with
                           | Some (_, u), _ => u
                           | None, Some (_, u) => u
                           | None, None => UnitAbs
                           end in
                  let agree := match fb, tb with
                               | Some (_, u1), Some (_, u2) => same_unit u1 u2
                               | _, _ => true
                               end in
                  if String.eqb name "" then bad
                  else if agree
                  then ok {| ri_split := name; ri_from := fst <$> fb;
                             ri_to := fst <$> tb; ri_unit := u |}
                  else bad
              | _, _ => bad
              end
          | None => bad
          end
      | _ => bad
      end
  end.

(** Python's [round] of the quotient [a / b], [b > 0]: to nearest, ties to
    even. *)
Definition round_half_even (a b : Z) : Z :=
  let q := a / b in
  let r := a mod b in
  if 2 * r <? b then q
  else if b <? 2 * r then q + 1
  else if Z.even q then q else q + 1.

(** [_pct_to_abs_closest]: [int(round(boundary * num_examples / 100.))].
    The library divides in binary64; below [2^53] the product is carried
    exactly and the two agree, which is the range the statements below
    keep to. *)
Definition pct_to_abs_closest (boundary n : Z) : Z :=
  round_half_even (boundary * n) 100.

(** An instruction resolved against a split of [n] examples: the range
    [[ai_from, ai_to)] of positions read. *)
Record AbsInstruction := {
  ai_split : string;
  ai_from : Z;
  ai_to : Z
}.

Definition rel_to_abs (ri : ReadInstruction) (n : Z) : result AbsInstruction :=
  let pct_ok o := match o with Some p => p <=? 100 | None => true end in
  let resolve o dflt :=
    match o with
    | None => dflt
    | Some v => match ri_unit ri with
                | UnitPct => pct_to_abs_closest v n
                | UnitAbs => v
                end
    end in
  match ri_unit ri with
  | UnitPct =>
      if pct_ok (ri_from ri) && pct_ok (ri_to ri) then
        ok {| ai_split := ri_split ri; ai_from := resolve (ri_from ri) 0;
              ai_to := resolve (ri_to ri) n |}
      else raise ValueError
  | UnitAbs =>
      let f := resolve (ri_from ri) 0 in
      let t := resolve (ri_to ri) n in
      if (f <=? n) && (t <=? n) then
        ok {| ai_split := ri_split ri; ai_from := f; ai_to := t |}
      else raise ValueError
  end.

(** Python's [l[from:to]] for [0 <= from] and [0 <= to]. *)
Definition slice {A} (from to : Z) (l : list A) : list A :=
  firstn (Z.to_nat (to - from)) (skipn (Z.to_nat from) l).

(** ** [tf.data]: a dataset is its source and the transformations applied *)

(** [tf.data.AUTOTUNE] is the constant [-1]. *)
Definition AUTOTUNE : Z := -1.

(** [tf.data.UNKNOWN_CARDINALITY] is the constant [-2]. *)
Definition UNKNOWN_CARDINALITY : Z := -2.

Inductive ds_op :=
| OpMap (f : list Z -> Z -> list float32 * Z) (num_parallel_calls : Z)
| OpCache
| OpShuffle (buffer_size : Z)
| OpBatch (size : Z)
| OpPrefetch (buffer_size : Z).

(** [ds_examples] are the stored examples the source reads, in stored order;
    [ds_ops] are the transformations, first applied first. *)
Record Dataset := {
  ds_builder : string;
  ds_instr : AbsInstruction;
  ds_shuffle_files : bool;
  ds_examples : list example;
  ds_ops : list ds_op
}.

Definition ds_apply (op : ds_op) (d : Dataset) : Dataset :=
  {| ds_builder := ds_builder d;
     ds_instr := ds_instr d;
     ds_shuffle_files := ds_shuffle_files d;
     ds_examples := ds_examples d;
     ds_ops := ds_ops d ++ [op] |}.

(** [d.map(f, num_parallel_calls=n)], [d.cache()], [d.prefetch(n)]: each
    returns a new dataset.  The script passes them [AUTOTUNE] only. *)
Definition ds_map f (num_parallel_calls : Z) := ds_apply (OpMap f num_parallel_calls).
Definition ds_cache := ds_apply OpCache.
Definition ds_prefetch (buffer_size : Z) := ds_apply (OpPrefetch buffer_size).

(** [d.shuffle(n)]: the buffer size must be positive, or
    [UNKNOWN_CARDINALITY]; else [InvalidArgumentError]. *)
Definition ds_shuffle (buffer_size : Z) (d : Dataset) : result Dataset :=
  if (0 <? buffer_size) || (buffer_size =? UNKNOWN_CARDINALITY)
  then ok (ds_apply (OpShuffle buffer_size) d)
  else raise InvalidArgumentError.

(** [d.batch(n)]: the batch size must be positive; else
    [InvalidArgumentError]. *)
Definition ds_batch (size : Z) (d : Dataset) : result Dataset :=
  if 0 <? size
  then ok (ds_apply (OpBatch size) d)
  else raise InvalidArgumentError.

(** ** [tfds.load] *)

(** One split specification: parsed, resolved against the stored split,
    and read.  An unknown split and an instruction that selects no example
    are both a [ValueError]. *)
Definition read_split (b : Builder) (name : string) (shuffle_files : bool)
    (spec : string) : result Dataset :=
  call ri <- parse_split spec;
  call exs <- match b_examples b !! ri_split ri with
              | Some exs => ok exs
              | None => raise ValueError
              end;
  call ai <- rel_to_abs ri (Z.of_nat (length exs));
  match slice (ai_from ai) (ai_to ai) exs with
  | [] => raise ValueError
  | selected =>
      ok {| ds_builder := name;
            ds_instr := ai;
            ds_shuffle_files := shuffle_files;
            ds_examples := selected;
            ds_ops := [] |}
  end.

(** [tfds.load(name, split=[...], shuffle_files=..., as_supervised=True,
    with_info=True)] over the catalog [cat]: one dataset of (image, label)
    pairs per requested split, and the info object.  The two keywords fixed
    to [True] select this form of elements and of return value.  A name
    that is not registered is [DatasetNotFoundError]; a registered dataset
    that is neither on disk nor can be downloaded is the download's
    [ConnectionError]. *)
Definition tfds_load (cat : gmap string dataset_source) (name : string)
    (split : list string) (shuffle_files : bool)
  : result (list Dataset * DatasetInfo) :=
  match cat !! name with
  | None => raise DatasetNotFoundError
  | Some Unobtainable => raise ConnectionError
  | Some (Prepared b) =>
      call dss <- mapM_result (read_split b name shuffle_files) split;
      ok (dss, builder_info b)
  end.

(** ** [prepare_data]  (lines 20-49) *)

(** What the functions of the script pass around. *)
#[warnings="-register-all"] Inductive pyobj :=
| PyDataset (d : Dataset)
| PyInfo (i : DatasetInfo)
| PyTuple (items : list pyobj).

(** Type annotations, as far as the script writes them. *)
#[warnings="-register-all"] Inductive pytype :=
| TAny
| TTuple (ts : list pytype).

(** The declared return annotation, [Tuple[Any, Any, Any]]. *)
Definition prepare_data_annotation : pytype := TTuple [TAny; TAny; TAny].

(** Whether a value is of an annotated type: anything is [Any]; a
    [Tuple[t1, ..., tn]] is a tuple of exactly [n] items, each of its
    type. *)
Fixpoint conforms (t : pytype) (v : pyobj) {struct t} : bool :=
  match t with
  | TAny => true
  | TTuple ts =>
      match v with
      | PyTuple vs =>
          (fix items (ts : list pytype) (vs : list pyobj) : bool :=
             match ts, vs with
             | [], [] => true
             | t' :: ts', v' :: vs' => conforms t' v' && items ts' vs'
             | _, _ => false
             end) ts vs
      | _ => false
      end
  end.

Definition prepare_data (cat : gmap string dataset_source) (hp : HyperParams)
  : result pyobj :=
  call (dss, info) <-
    tfds_load cat "mnist" ["train[:90%]"; "train[90%:]"; "test"] true;
  call (train, dev, test) <-
    match dss with
    | [train; dev; test] => ok (train, dev, test)
    | _ => raise ValueError
    end;

  let train := ds_map normalize_img AUTOTUNE train in
  let train := ds_cache train in
  call train_split <- getitem (splits info) "train";
  call train <- ds_shuffle (num_examples train_split) train;
  call train <- ds_batch (batch_size hp) train;
  let train := ds_prefetch AUTOTUNE train in

  let dev := ds_map normalize_img AUTOTUNE dev in
  call dev <- ds_batch (batch_size hp) dev;
  let dev := ds_cache dev in
  let dev := ds_prefetch AUTOTUNE dev in

  let test := ds_map normalize_img AUTOTUNE test in
  call test <- ds_batch (batch_size hp) test;
  let test := ds_cache test in
  let test := ds_prefetch AUTOTUNE test in

  ok (PyTuple [PyDataset train; PyDataset dev; PyDataset test; PyInfo info]).

(** ** Keras: layers, the functional API, the model *)

(** The releases of Keras the script runs on, as far as they differ in
    what follows: [tf.keras] 2.4 to 2.15, and Keras 3 (which [tf.keras] is
    from TensorFlow 2.16 on). *)
Inductive keras_version := Keras2 | Keras3.

Inductive activation := relu | softmax.
Inductive regularizer := l2.

Inductive layer :=
| Flatten
| Dense (units : Z) (act : option activation)
        (kernel_regularizer : option regularizer)
| Dropout (rate : Q).

(** A symbolic tensor of the functional API: the input placeholder, or the
    result of calling a layer on a tensor. *)
Inductive ktensor :=
| Input (shape : list Z)
| Apply (l : layer) (x : ktensor).

(** [tf.keras.layers.Dense(units, activation=..., kernel_regularizer=...)],
    created and called: a negative number of units is a [ValueError]. *)
Definition keras_Dense (units : Z) (act : option activation)
    (kernel_regularizer : option regularizer) : result layer :=
  if units <? 0 then raise ValueError
  else ok (Dense units act kernel_regularizer).

Inductive optimizer := Adam.
Inductive loss_fn := SparseCategoricalCrossentropy.
Inductive metric := SparseCategoricalAccuracy (name : string).

Definition metric_name (m : metric) : string :=
  match m with SparseCategoricalAccuracy n => n end.

Record CompileConfig := {
  cc_optimizer : optimizer;
  cc_loss : loss_fn;
  cc_metrics : list metric
}.

Record Model := {
  inputs : ktensor;
  outputs : ktensor;
  compiled : option CompileConfig
}.

(** [tf.keras.Model(inputs=..., outputs=...)] *)
Definition keras_Model (i o : ktensor) : Model :=
  {| inputs := i; outputs := o; compiled := None |}.

(** [model.compile(optimizer=..., loss=..., metrics=...)] *)
Definition model_compile (m : Model) (o : optimizer) (l : loss_fn)
    (ms : list metric) : Model :=
  {| inputs := inputs m; outputs := outputs m;
     compiled := Some {| cc_optimizer := o; cc_loss := l; cc_metrics := ms |} |}.

(** The layers on the path from the input to a tensor, input side first. *)
Fixpoint layers_of (t : ktensor) : list layer :=
  match t with
  | Input _ => []
  | Apply l x => layers_of x ++ [l]
  end.

Fixpoint input_of (t : ktensor) : ktensor :=
  match t with
  | Input s => Input s
  | Apply _ x => input_of x
  end.

Definition model_layers (m : Model) : list layer := layers_of (outputs m).

(** ** Keras: training and evaluation *)

(** Python floats are IEEE-754 binary64; only their order is used here. *)
Definition float64 := spec_float.
Definition f64_inf : float64 := S754_infinity false.

(** [np.less]: false whenever an operand is NaN. *)
Definition np_less (x y : float64) : bool := SFltb x y.

(** The numeric engine behind [fit] and [evaluate], and the release of
    Keras that drives it: the trainable state of a model and its initial
    value, one training pass over a dataset (which also reports the
    training-side logs of that epoch), and the loss and metric values of a
    model state over a dataset.  Each of them may raise. *)
Record Backend := {
  keras : keras_version;
  weights : Type;
  initial_weights : Model -> result weights;
  train_epoch : Model -> Dataset -> Z -> weights
                -> result (weights * gmap string float64);
  compute_loss : Model -> Dataset -> weights -> result float64;
  compute_metric : Model -> metric -> Dataset -> weights -> result float64
}.

(** [tf.keras.callbacks.EarlyStopping(monitor=..., patience=...)] with its
    defaults [min_delta=0], [mode='auto'], [baseline=None],
    [restore_best_weights=False], [start_from_epoch=0]. *)
Inductive callback :=
| EarlyStopping (monitor : string) (patience : Z).

(** The state of an [EarlyStopping] instance.  [es_best] is [None] where
    Python has [None]. *)
Record es_state := {
  es_wait : Z;
  es_best : option float64;
  es_stopped_epoch : Z
}.

(** The best value before any epoch: infinity in Keras 2 (for a monitor
    that is not an accuracy, [mode='auto'] compares with [np.less]),
    [None] in Keras 3. *)
Definition initial_best (v : keras_version) : option float64 :=
  match v with
  | Keras2 => Some f64_inf
  | Keras3 => None
  end.

(** [on_train_begin] *)
Definition es_on_train_begin (v : keras_version) : es_state :=
  {| es_wait := 0; es_best := initial_best v; es_stopped_epoch := 0 |}.

(** [_is_improvement(current, best)] with [min_delta = 0]: anything
    improves on [None]. *)
Definition is_improvement (current : float64) (best : option float64) : bool :=
  match best with
  | None => true
  | Some b => np_less current b
  end.

(** [on_epoch_end(epoch, logs)]: the new state and whether the callback
    sets [model.stop_training].  After an improvement Keras 3 returns at
    once; Keras 2 goes on to the test of [wait] against [patience]. *)
Definition es_on_epoch_end (v : keras_version) (cb : callback) (epoch : Z)
    (logs : gmap string float64) (st : es_state) : es_state * bool :=
  match cb with
  | EarlyStopping monitor patience =>
      match logs !! monitor with
      | None => (st, false)
      | Some current =>
          let improved := is_improvement current (es_best st) in
          let best := if improved then Some current else es_best st in
          let wait := if improved then 0 else es_wait st + 1 in
          let check :=
            match v with
            | Keras2 => true
            | Keras3 => negb improved
            end in
          if check && (patience <=? wait) && (0 <? epoch)
          then ({| es_wait := wait; es_best := best;
                   es_stopped_epoch := epoch |}, true)
          else ({| es_wait := wait; es_best := best;
                   es_stopped_epoch := es_stopped_epoch st |}, false)
      end
  end.

(** The validation pass at the end of an epoch: the loss and every compiled
    metric over the validation data, under the [val_] prefix. *)
Definition validation_logs (be : Backend) (m : Model) (cfg : CompileConfig)
    (val : Dataset) (w : weights be) : result (list (string * float64)) :=
  call loss <- compute_loss be m val w;
  call ms <-
    mapM_result
      (fun mt =>
         call v <- compute_metric be m mt val w;
         ok ("val_" +:+ metric_name mt, v))
      (cc_metrics cfg);
  ok (("val_loss", loss) :: ms).

(** [logs.update(val_logs)] *)
Definition logs_update (logs : gmap string float64)
    (upd : list (string * float64)) : gmap string float64 :=
  fold_left (fun acc kv => <[fst kv := snd kv]> acc) upd logs.

Record fit_state (be : Backend) := {
  fs_weights : weights be;
  fs_callbacks : list (callback * es_state);
  fs_history : list (gmap string float64);
  fs_stop_training : bool
}.
Arguments fs_weights {be}.
Arguments fs_callbacks {be}.
Arguments fs_history {be}.
Arguments fs_stop_training {be}.

(** Every callback sees the logs of the epoch; any of them may ask to stop. *)
Fixpoint callbacks_on_epoch_end (v : keras_version) (epoch : Z)
    (logs : gmap string float64)
    (cbs : list (callback * es_state)) : list (callback * es_state) * bool :=
  match cbs with
  | [] => ([], false)
  | (cb, st) :: rest =>
      let (st', stop) := es_on_epoch_end v cb epoch logs st in
      let (rest', stop') := callbacks_on_epoch_end v epoch logs rest in
      ((cb, st') :: rest', stop || stop')
  end.

(** One iteration of the epoch loop of [fit]. *)
Definition fit_epoch (be : Backend) (m : Model) (cfg : CompileConfig)
    (x val : Dataset) (epoch : Z) (st : fit_state be)
  : result (fit_state be) :=
  call (w, train_logs) <- train_epoch be m x epoch (fs_weights st);
  call val_logs <- validation_logs be m cfg val w;
  let logs := logs_update train_logs val_logs in
  let (cbs, stop) :=
    callbacks_on_epoch_end (keras be) epoch logs (fs_callbacks st) in
  ok {| fs_weights := w;
        fs_callbacks := cbs;
        fs_history := fs_history st ++ [logs];
        fs_stop_training := stop |}.

(** [for epoch in range(initial_epoch, epochs): ...; if stop_training:
    break], with [n] iterations left. *)
Fixpoint fit_loop (be : Backend) (m : Model) (cfg : CompileConfig)
    (x val : Dataset) (n : nat) (epoch : Z) (st : fit_state be)
  : result (fit_state be) :=
  match n with
  | O => ok st
  | S n' =>
      call st' <- fit_epoch be m cfg x val epoch st;
      if fs_stop_training st' then ok st'
      else fit_loop be m cfg x val n' (epoch + 1) st'
  end.

(** [model.fit(x, epochs=..., validation_data=..., callbacks=...)]: the
    trained state and the per-epoch logs.  An uncompiled model raises. *)
Definition keras_fit (be : Backend) (m : Model) (w : weights be)
    (x : Dataset) (epochs : Z) (val : Dataset) (cbs : list callback)
  : result (weights be * list (gmap string float64)) :=
  match compiled m with
  | None => raise RuntimeError
  | Some cfg =>
      let st0 := {| fs_weights := w;
                    fs_callbacks :=
                      map (fun cb => (cb, es_on_train_begin (keras be))) cbs;
                    fs_history := [];
                    fs_stop_training := false |} in
      call st <- fit_loop be m cfg x val (Z.to_nat epochs) 0 st0;
      ok (fs_weights st, fs_history st)
  end.

(** [model.evaluate(x)]: the loss followed by the compiled metrics. *)
Definition keras_evaluate (be : Backend) (m : Model) (w : weights be)
    (x : Dataset) : result (list float64) :=
  match compiled m with
  | None => raise RuntimeError
  | Some cfg =>
      call loss <- compute_loss be m x w;
      call ms <- mapM_result (fun mt => compute_metric be m mt x w)
                   (cc_metrics cfg);
      ok (loss :: ms)
  end.

(** ** The function a network denotes, over the real numbers

    This is the mathematical function of the layers, not what the code
    computes: the code computes in [tf.float32], modelled after it.  A
    tensor is the list of its elements, so [Flatten] is the identity. *)

Definition Rsum (l : list R) : R := fold_right Rplus 0%R l.

(** The trainable parameters of the dense layer at each depth: the kernel
    entry for (unit, input position) and the bias of each unit. *)
Record Params := {
  kernel : nat -> nat -> nat -> R;
  bias : nat -> nat -> R
}.

Fixpoint dot (row : nat -> R) (i : nat) (x : list R) : R :=
  match x with
  | [] => 0%R
  | xi :: x' => (row i * xi + dot row (S i) x')%R
  end.

(** [tf.nn.relu] and [tf.nn.softmax] *)
Definition relu_fwd (x : list R) : list R := map (Rmax 0) x.

Definition softmax_fwd (x : list R) : list R :=
  let total := Rsum (map exp x) in
  map (fun xi => (exp xi / total)%R) x.

Definition activation_fwd (a : option activation) (x : list R) : list R :=
  match a with
  | None => x
  | Some relu => relu_fwd x
  | Some softmax => softmax_fwd x
  end.

Definition dense_fwd (units : Z) (k : nat -> nat -> R) (b : nat -> R)
    (x : list R) : list R :=
  map (fun j => (dot (k j) 0 x + b j)%R) (seq 0 (Z.to_nat units)).

Fixpoint dropout_mask (rate : Q) (keep : nat -> bool) (i : nat) (x : list R)
  : list R :=
  match x with
  | [] => []
  | xi :: x' =>
      (if keep i then (xi / (1 - Q2R rate))%R else 0%R)
      :: dropout_mask rate keep (S i) x'
  end.

(** [Dropout]: the identity at inference ([training = None]); in training,
    the units the mask drops are zeroed and the others scaled up. *)
Definition dropout_fwd (rate : Q) (training : option (nat -> bool))
    (x : list R) : list R :=
  match training with
  | None => x
  | Some keep => dropout_mask rate keep 0 x
  end.

Definition layer_fwd (p : Params) (training : option (nat -> bool))
    (depth : nat) (l : layer) (x : list R) : list R :=
  match l with
  | Flatten => x
  | Dense units act _ =>
      activation_fwd act (dense_fwd units (kernel p depth) (bias p depth) x)
  | Dropout rate => dropout_fwd rate training x
  end.

(** The value of a symbolic tensor when the input placeholder holds [x]. *)
Fixpoint forward (p : Params) (training : option (nat -> bool))
    (t : ktensor) (x : list R) : list R :=
  match t with
  | Input _ => x
  | Apply l t' =>
      layer_fwd p training (length (layers_of t')) l (forward p training t' x)
  end.

(** ** What a network computes, in [tf.float32] *)

Definition f32_zero : float32 := S754_zero false.
Definition f32_one : float32 := f32_of_Z 1.
Definition f32_add : float32 -> float32 -> float32 := SFadd prec32 emax32.
Definition f32_sub : float32 -> float32 -> float32 := SFsub prec32 emax32.
Definition f32_mul : float32 -> float32 -> float32 := SFmul prec32 emax32.

Definition f32_sum (l : list float32) : float32 := fold_left f32_add l f32_zero.

(** The larger of two floats; NaN if either is. *)
Definition f32_max (x y : float32) : float32 :=
  match SFcompare x y with
  | None => S754_nan
  | Some Lt => y
  | Some _ => x
  end.

(** Fixed-point arithmetic on integers scaled by [2^256], for the
    exponential: [n] terms of its series at [r], and [k] squarings. *)
Fixpoint exp_terms (n : nat) (i : Z) (r term acc : Z) : Z :=
  match n with
  | O => acc
  | S n' => exp_terms n' (i + 1) r (term * r / 2 ^ 256 / (i + 1)) (acc + term)
  end.

Fixpoint square_times (k : nat) (y : Z) : Z :=
  match k with
  | O => y
  | S k' => square_times k' (y * y / 2 ^ 256)
  end.

(** The exponential.  Its values at zero, at the infinities and at NaN are
    those every implementation gives.  Between them the library's value is
    within a unit in the last place of the exact one; the float nearest
    to a fixed-point evaluation of [e^x] is what is taken here. *)
Definition f32_exp (x : float32) : float32 :=
  match x with
  | S754_nan => S754_nan
  | S754_infinity false => S754_infinity false
  | S754_infinity true => f32_zero
  | S754_zero _ => f32_one
  | S754_finite s m e =>
      let qn := if 0 <=? e then Z.pos m * 2 ^ e else Z.pos m in
      let qd := if 0 <=? e then 1 else 2 ^ (- e) in
      if (negb s) && (89 * qd <=? qn) then S754_infinity false
      else if s && (104 * qd <=? qn) then f32_zero
      else
        let r := qn * 2 ^ 256 / (qd * 2 ^ 7) in
        let y := square_times 7 (exp_terms 40 0 r (2 ^ 256) 0) in
        let y := if s then 2 ^ 512 / y else y in
        binary_normalize prec32 emax32 (2 * y + 1) (-257) false
  end.

Record Params32 := {
  kernel32 : nat -> nat -> nat -> float32;
  bias32 : nat -> nat -> float32
}.

Fixpoint dot32 (row : nat -> float32) (i : nat) (x : list float32)
    (acc : float32) : float32 :=
  match x with
  | [] => acc
  | xi :: x' => dot32 row (S i) x' (f32_add acc (f32_mul xi (row i)))
  end.

Definition relu32 (x : list float32) : list float32 :=
  map (fun v => f32_max v f32_zero) x.

(** [tf.nn.softmax] as its CPU kernel computes it: the logits less their
    maximum, exponentiated, and scaled by the inverse of their sum. *)
Definition softmax32 (x : list float32) : list float32 :=
  match x with
  | [] => []
  | x0 :: x' =>
      let top := fold_left f32_max x' x0 in
      let e := map (fun v => f32_exp (f32_sub v top)) x in
      let inv := f32_div f32_one (f32_sum e) in
      map (fun v => f32_mul v inv) e
  end.

Definition activation32 (a : option activation) (x : list float32)
  : list float32 :=
  match a with
  | None => x
  | Some relu => relu32 x
  | Some softmax => softmax32 x
  end.

Definition dense32 (units : Z) (k : nat -> nat -> float32)
    (b : nat -> float32) (x : list float32) : list float32 :=
  map (fun j => f32_add (dot32 (k j) 0 x f32_zero) (b j))
      (seq 0 (Z.to_nat units)).

(** At inference [Dropout] is the identity. *)
Definition layer32 (p : Params32) (depth : nat) (l : layer)
    (x : list float32) : list float32 :=
  match l with
  | Flatten => x
  | Dense units act _ =>
      activation32 act (dense32 units (kernel32 p depth) (bias32 p depth) x)
  | Dropout _ => x
  end.

(** The value of a symbolic tensor at inference when the input placeholder
    holds [x]. *)
Fixpoint forward32 (p : Params32) (t : ktensor) (x : list float32)
  : list float32 :=
  match t with
  | Input _ => x
  | Apply l t' => layer32 p (length (layers_of t')) l (forward32 p t' x)
  end.

(** ** What a run of [main] does that is visible from outside *)

Inductive pyarg :=
| PStr (s : string)
| PFloat (x : float64).

Inductive event :=
| EvFit (m : Model) (x : Dataset) (epochs : Z) (validation_data : Dataset)
        (callbacks : list callback) (history : list (gmap string float64))
| EvEvaluate (m : Model) (x : Dataset) (results : list float64)
| EvPrint (args : list pyarg).

(** A computation that logs events and may raise: the events so far, and
    how it ended. *)
Definition M (A : Type) : Type := (list event * result A)%type.

Definition mret {A} (a : A) : M A := ([], ok a).

Definition mbind {A B} (c : M A) (k : A -> M B) : M B :=
  match c with
  | (tr, inl e) => (tr, inl e)
  | (tr, inr a) => let (tr', r) := k a in ((tr ++ tr')%list, r)
  end.

Definition lift {A} (r : result A) : M A := ([], r).
Definition emit (ev : event) : M unit := ([ev], ok tt).

Notation "'do' p <- c ; k" := (mbind c (fun p => k))
  (at level 60, p pattern, c at next level, right associativity,
   format "'[v' 'do'  p  <-  c ; '/' k ']'").

(** [model.fit(...)] as the script sees it: the model object is trained in
    place, here by returning the new state. *)
Definition model_fit (be : Backend) (m : Model) (w : weights be)
    (x : Dataset) (epochs : Z) (val : Dataset) (cbs : list callback)
  : M (weights be) :=
  do (w', history) <- lift (keras_fit be m w x epochs val cbs);
  do _ <- emit (EvFit m x epochs val cbs history);
  mret w'.

Definition model_evaluate (be : Backend) (m : Model) (w : weights be)
    (x : Dataset) : M (list float64) :=
  do results <- lift (keras_evaluate be m w x);
  do _ <- emit (EvEvaluate m x results);
  mret results.

(** [print(...)] writes one line to standard output. *)
Definition print (args : list pyarg) : M unit := emit (EvPrint args).

(** ** [main]  (lines 52-84) *)

(** A [for] loop whose body may raise. *)
Fixpoint for_each {A B} (body : A -> B -> result A) (l : list B) (a : A)
  : result A :=
  match l with
  | [] => ok a
  | b :: l' =>
      call a' <- body a b;
      for_each body l' a'
  end.

(** Lines 56-63: the network. *)
Definition build_model (info : DatasetInfo) (hp : HyperParams) : result Model :=
  call image <- getitem (features info) "image";
  let inputs := Input (shape image) in
  let hidden := Apply Flatten inputs in
  call hidden <-
    for_each
      (fun hidden hidden_size =>
         call dense <- keras_Dense hidden_size (Some relu) (Some l2);
         ok (Apply dense hidden))
      (hidden_layers hp) hidden;
  let hidden := Apply (Dropout 0.5) hidden in
  call dense <- keras_Dense 10 (Some softmax) None;
  let outputs := Apply dense hidden in
  ok (keras_Model inputs outputs).

(** [train, dev, test, info = ...]: the value must be a tuple of four. *)
Definition unpack_four (r : pyobj)
  : result (Dataset * Dataset * Dataset * DatasetInfo) :=
  match r with
  | PyTuple [PyDataset train; PyDataset dev; PyDataset test; PyInfo info] =>
      ok (train, dev, test, info)
  | PyTuple [_; _; _; _] => raise TypeError
  | PyTuple _ => raise ValueError
  | _ => raise TypeError
  end.

Definition main (be : Backend) (cat : gmap string dataset_source)
    (hp : HyperParams) : M unit :=
  do r <- lift (prepare_data cat hp);
  do (train, dev, test, info) <- lift (unpack_four r);

  do model <- lift (build_model info hp);
  do w <- lift (initial_weights be model);

  let model :=
    model_compile model Adam SparseCategoricalCrossentropy
      [SparseCategoricalAccuracy "accuracy"] in

  let stop_early := EarlyStopping "val_loss" 5 in

  do w <- model_fit be model w train (epochs hp) dev [stop_early];

  do results <- model_evaluate be model w test;
  do (test_loss, test_acc) <-
    lift match results with
         | [test_loss; test_acc] => ok (test_loss, test_acc)
         | _ => raise ValueError
         end;
  print [PStr "test loss, test acc:"; PFloat test_loss; PFloat test_acc].

(** ** The script  (lines 87-89)

    Run as a program, the script reads nothing from its command line. *)
Definition script (be : Backend) (cat : gmap string dataset_source)
    (argv : list string) : M unit :=
  let hp := {| batch_size := 100; epochs := 20; hidden_layers := [100; 100] |} in
  main be cat hp.

(** * Vocabulary of the statements *)

(** ** Pixels and their images *)

Definition is_uint8 (v : Z) : Prop := 0 <= v <= 255.

(** The spacing of the floats around a finite [x]. *)
Definition f32_ulp (x : float32) : Q :=
  match x with
  | S754_finite _ _ e => Qpower 2 e
  | _ => 0%Q
  end.

(** [r] is a finite float in [[0, 1]] within half a unit in its last
    place of the exact quotient [v / 255]: rounding to nearest. *)
Definition rounds_quotient (v : Z) (r : float32) : Prop :=
  exists q : Q,
    f32_to_Q r = Some q
    /\ (Qabs (q - inject_Z v / 255) <= f32_ulp r / 2)%Q
    /\ (0 <= q)%Q /\ (q <= 1)%Q.

Definition rounds_quotientb (v : Z) (r : float32) : bool :=
  match f32_to_Q r with
  | Some q =>
      Qle_bool (Qabs (q - inject_Z v / 255)) (f32_ulp r / 2)
      && Qle_bool 0 q && Qle_bool q 1
  | None => false
  end.

Definition pixel_values : list Z := map Z.of_nat (seq 0 256).

(** A pixel value and what the transform makes of it. *)
Definition normalized (v : Z) (r : float32) : Prop :=
  rounds_quotient v r
  /\ (v = 255 -> r = f32_of_Z 1)
  /\ (v = 0 -> r = f32_of_Z 0).

(** ** Catalogs and pipelines *)

(** What [tfds.load] hands to [prepare_data] for one split specification
    of a split holding the examples [exs]. *)
Definition loaded (split : string) (from to : Z) (exs : list example) : Dataset :=
  {| ds_builder := "mnist";
     ds_instr := {| ai_split := split; ai_from := from; ai_to := to |};
     ds_shuffle_files := true;
     ds_examples := slice from to exs;
     ds_ops := [] |}.

(** The three pipelines of [prepare_data] over the stored training
    examples [tr] and test examples [te]. *)
Definition train_pipeline (hp : HyperParams) (tr : list example) : Dataset :=
  let n := Z.of_nat (length tr) in
  ds_prefetch AUTOTUNE
    (ds_apply (OpBatch (batch_size hp))
       (ds_apply (OpShuffle n)
          (ds_cache
             (ds_map normalize_img AUTOTUNE
                (loaded "train" 0 (pct_to_abs_closest 90 n) tr))))).

Definition dev_pipeline (hp : HyperParams) (tr : list example) : Dataset :=
  let n := Z.of_nat (length tr) in
  ds_prefetch AUTOTUNE
    (ds_cache
       (ds_apply (OpBatch (batch_size hp))
          (ds_map normalize_img AUTOTUNE
             (loaded "train" (pct_to_abs_closest 90 n) n tr)))).

Definition test_pipeline (hp : HyperParams) (te : list example) : Dataset :=
  ds_prefetch AUTOTUNE
    (ds_cache
       (ds_apply (OpBatch (batch_size hp))
          (ds_map normalize_img AUTOTUNE
             (loaded "test" 0 (Z.of_nat (length te)) te)))).

(** The tuple [prepare_data] returns over them. *)
Definition prepared (hp : HyperParams) (b : Builder) (tr te : list example)
  : pyobj :=
  PyTuple [PyDataset (train_pipeline hp tr); PyDataset (dev_pipeline hp tr);
           PyDataset (test_pipeline hp te); PyInfo (builder_info b)].

(** The sizes [tfds.load] needs of the stored splits: a dev slice that is
    not empty, which takes five training examples, and a test split that
    is not empty. *)
Definition sizes_ok (tr te : list example) : bool :=
  (5 <=? Z.of_nat (length tr))
  && match te with [] => false | _ :: _ => true end.

(** The dataset [d] reads position [i] of the stored split [s]. *)
Definition reads (d : Dataset) (s : string) (i : Z) : Prop :=
  ai_split (ds_instr d) = s
  /\ ai_from (ds_instr d) <= i < ai_to (ds_instr d).

Definition is_batch (op : ds_op) : bool :=
  match op with OpBatch _ => true | _ => false end.
Definition is_shuffle (op : ds_op) : bool :=
  match op with OpShuffle _ => true | _ => false end.
Definition is_cache (op : ds_op) : bool :=
  match op with OpCache => true | _ => false end.
Definition is_prefetch (op : ds_op) : bool :=
  match op with OpPrefetch _ => true | _ => false end.

(** Some transformation of the kind [kind] is configured on [d]. *)
Definition configures (kind : ds_op -> bool) (d : Dataset) : bool :=
  existsb kind (ds_ops d).

(** A small catalog on which the statements can be run. *)
Definition sample_example (n : Z) : example := ([n; 255 - n], n mod 10).

Definition sample_train : list example :=
  map sample_example [0; 1; 2; 3; 4; 5; 6; 7; 8; 9; 10; 11; 12; 13; 14].

Definition sample_test : list example := map sample_example [100; 101].

Definition sample_image : FeatureInfo := {| shape := [2; 1; 1] |}.

Definition sample_builder : Builder :=
  {| b_examples := {[ "train" := sample_train; "test" := sample_test ]};
     b_features :=
       {[ "image" := sample_image; "label" := {| shape := [] |} ]} |}.

Definition sample_catalog : gmap string dataset_source :=
  {[ "mnist" := Prepared sample_builder ]}.

Definition sample_hp : HyperParams :=
  {| batch_size := 100; epochs := 20; hidden_layers := [100; 100] |}.

Definition sample_hp_no_batch : HyperParams :=
  {| batch_size := 0; epochs := 20; hidden_layers := [100; 100] |}.

Definition sample_hp_no_epochs : HyperParams :=
  {| batch_size := 100; epochs := 0; hidden_layers := [100; 100] |}.

(** The sample catalog holds what the script asks of it. *)
Definition sample_ready : Prop :=
  sample_catalog !! "mnist" = Some (Prepared sample_builder)
  /\ b_examples sample_builder !! "train" = Some sample_train
  /\ b_examples sample_builder !! "test" = Some sample_test
  /\ b_features sample_builder !! "image" = Some sample_image.

(** The model [build_model] returns on the sample catalog. *)
Definition sample_model : Model :=
  keras_Model (Input [2; 1; 1])
    (Apply (Dense 10 (Some softmax) None)
       (Apply (Dropout 0.5)
          (Apply (Dense 100 (Some relu) (Some l2))
             (Apply (Dense 100 (Some relu) (Some l2))
                (Apply Flatten (Input [2; 1; 1])))))).

(** ** Events *)

(** The model an event carries. *)
Definition event_model (ev : event) : option Model :=
  match ev with
  | EvFit m _ _ _ _ _ => Some m
  | EvEvaluate m _ _ => Some m
  | EvPrint _ => None
  end.

Definition is_fit (ev : event) : bool :=
  match ev with EvFit _ _ _ _ _ _ => true | _ => false end.

(** The number of epochs the first [fit] of a trace ran. *)
Definition epochs_run (trace : list event) : option nat :=
  match trace with
  | EvFit _ _ _ _ _ history :: _ => Some (length history)
  | _ => None
  end.

(** ** Training curves *)

(** The compile step of the script. *)
Definition script_config : CompileConfig :=
  {| cc_optimizer := Adam; cc_loss := SparseCategoricalCrossentropy;
     cc_metrics := [SparseCategoricalAccuracy "accuracy"] |}.

Definition script_compile (m0 : Model) : Model :=
  model_compile m0 Adam SparseCategoricalCrossentropy
    [SparseCategoricalAccuracy "accuracy"].

(** [trained be m x val j w history losses w']: from the model state [w],
    the epochs numbered [j], [j + 1], ... were trained on [x] by the engine
    and left the state [w']; [losses] are the losses the engine computed
    on [val] after each of them, and the logs of each epoch, [history],
    carry that loss as [val_loss]. *)
Inductive trained (be : Backend) (m : Model) (x val : Dataset)
  : nat -> weights be -> list (gmap string float64) -> list float64
    -> weights be -> Prop :=
| trained_none (j : nat) (w : weights be) : trained be m x val j w [] [] w
| trained_epoch (j : nat) (w w1 w' : weights be)
    (train_logs logs : gmap string float64) (loss : float64)
    (history : list (gmap string float64)) (losses : list float64) :
    train_epoch be m x (Z.of_nat j) w = ok (w1, train_logs) ->
    compute_loss be m val w1 = ok loss ->
    logs !! "val_loss" = Some loss ->
    trained be m x val (S j) w1 history losses w' ->
    trained be m x val j w (logs :: history) (loss :: losses) w'.

(** Reading a list of losses from the first epoch on: the best value so
    far, and for how many epochs in a row, up to the last one, the loss
    has not improved, that is, has not gone below the best value before
    it.  Before the first epoch the best value is infinity in Keras 2 and
    absent in Keras 3, where the first loss therefore always improves. *)
Fixpoint stale_scan (best : option float64) (run : nat)
    (losses : list float64) : option float64 * nat :=
  match losses with
  | [] => (best, run)
  | c :: losses' =>
      if is_improvement c best then stale_scan (Some c) 0 losses'
      else stale_scan best (S run) losses'
  end.

Definition best_loss (v : keras_version) (losses : list float64)
  : option float64 :=
  fst (stale_scan (initial_best v) 0 losses).

Definition stale_epochs (v : keras_version) (losses : list float64) : nat :=
  snd (stale_scan (initial_best v) 0 losses).

(** What holds of the state of [fit] each time the epoch loop is entered,
    with the script's callback and compile step. *)
Definition fit_invariant (be : Backend) (m : Model) (x val : Dataset)
    (w0 : weights be) (st : fit_state be) : Prop :=
  exists losses es,
    trained be m x val 0 w0 (fs_history st) losses (fs_weights st)
    /\ fs_callbacks st = [(EarlyStopping "val_loss" 5, es)]
    /\ es_wait es = Z.of_nat (stale_epochs (keras be) losses)
    /\ es_best es = best_loss (keras be) losses
    /\ (forall j, (j <= length losses)%nat ->
                  (stale_epochs (keras be) (firstn j losses) < 5)%nat).

(** What holds of it when the loop is left, having been allowed [limit]
    epochs in all. *)
Definition fit_outcome (be : Backend) (m : Model) (x val : Dataset)
    (w0 : weights be) (limit : nat) (w : weights be)
    (history : list (gmap string float64)) : Prop :=
  exists losses,
    trained be m x val 0 w0 history losses w
    /\ (length history <= limit)%nat
    /\ (forall j, (j < length losses)%nat ->
                  (stale_epochs (keras be) (firstn j losses) < 5)%nat)
    /\ ((length history < limit)%nat ->
        stale_epochs (keras be) losses = 5%nat).

(** ** Small numeric engines on which the statements can be run

    Their model state counts the training passes made.  With the first,
    the loss falls by one per pass from 9 down to 4 and stays there; with
    the second it is NaN throughout. *)

Definition f64_of_Z (z : Z) : float64 := binary_normalize 53 1024 z 0 false.

Definition sample_backend (v : keras_version) : Backend :=
  {| keras := v;
     weights := nat;
     initial_weights := fun _ => ok 0%nat;
     train_epoch := fun _ _ _ w =>
       ok (S w, {[ "loss" := f64_of_Z (Z.max (10 - Z.of_nat (S w)) 4) ]});
     compute_loss := fun _ _ w => ok (f64_of_Z (Z.max (10 - Z.of_nat w) 4));
     compute_metric := fun _ _ _ w => ok (f64_of_Z (Z.of_nat w)) |}.

Definition diverged_backend (v : keras_version) : Backend :=
  {| keras := v;
     weights := nat;
     initial_weights := fun _ => ok 0%nat;
     train_epoch := fun _ _ _ w => ok (S w, ∅);
     compute_loss := fun _ _ _ => ok S754_nan;
     compute_metric := fun _ _ _ _ => ok (f64_of_Z 0) |}.

(** What a run of [main] on the sample catalog and engine leaves behind. *)
Definition sample_trace (v : keras_version) : list event :=
  fst (main (sample_backend v) sample_catalog sample_hp).

Definition diverged_trace (v : keras_version) : list event :=
  fst (main (diverged_backend v) sample_catalog sample_hp).

(** For how many epochs training goes on when no loss ever improves on
    the one before. *)
Definition diverged_span (v : keras_version) : nat :=
  match v with
  | Keras2 => 5
  | Keras3 => 6
  end.

(** ** Sample networks in [tf.float32] *)

(** All kernels and biases zero. *)
Definition zero_params : Params32 :=
  {| kernel32 := fun _ _ _ => f32_zero; bias32 := fun _ _ => f32_zero |}.

(** All kernels and biases NaN, as a training that diverged leaves them. *)
Definition nan_params : Params32 :=
  {| kernel32 := fun _ _ _ => S754_nan; bias32 := fun _ _ => S754_nan |}.

(** The float is NaN, or its sign bit is clear: it is not negative, nor the
    negative zero. *)
Definition sign_clear (x : float32) : bool :=
  match x with
  | S754_nan => true
  | S754_zero s | S754_infinity s | S754_finite s _ _ => negb s
  end.

(** The image of the fourth sample example, as the network is fed it. *)
Definition sample_input : list float32 := fst (normalize_img [3; 252] 3).

(** The exact sum of finite floats, as a rational. *)
Definition exact_sum (l : list float32) : option Q :=
  fold_right
    (fun x acc =>
       match f32_to_Q x, acc with
       | Some q, Some a => Some (Qred (q + a))
       | _, _ => None
       end)
    (Some 0%Q) l.

(** ** Sample heaps

    The list [[100, 100]] at its address, and the [HyperParams] object
    built over it by line 88. *)
Definition sample_heap_list : loc * gmap loc object :=
  new_list [VInt 100; VInt 100] ∅.

Definition HyperParams_class : pyclass :=
  {| cls_name := "HyperParams";
     cls_fields := ["batch_size"; "epochs"; "hidden_layers"] |}.

Definition sample_heap : result (loc * loc * gmap loc object) :=
  let (r, h) := sample_heap_list in
  call (l, h') <- construct HyperParams_class [VInt 100; VInt 20; VRef r] h;
  ok (r, l, h').

(** Every pixel value beside its normalized value. *)
Definition normalized_table : list (Z * float32) :=
  map (fun v => (v, normalize_pixel v)) pixel_values.

(** * Properties *)

(** ** [HyperParams] as an object *)

Section Objects.

Lemma alloc_fresh (h : gmap loc object) (o : object) :
  h !! fst (alloc h o) = None.
Proof.
  unfold alloc; cbn [fst]. apply not_elem_of_dom, is_fresh.
Qed.

(** A statement never changes a tuple in place: what it changes is a list
    or a plain instance. *)
Lemma mutate_keeps_tuples (m : mutation) (h h' : gmap loc object)
    (l : loc) (cls : string) (fields : list string) (items : list value) :
  mutate m h = ok h' ->
  h !! l = Some (OTuple cls fields items) ->
  h' !! l = Some (OTuple cls fields items).
Proof.
  intros Hm Hl.
  destruct m as [t name v|t i v|t v]; cbn [mutate] in Hm;
    destruct (h !! t) as [[c f its|its|attrs]|] eqn:Ht; try discriminate Hm.
  - injection Hm as <-. rewrite lookup_insert_ne; [exact Hl|congruence].
  - destruct (seq_index its i); [|discriminate Hm].
    injection Hm as <-. rewrite lookup_insert_ne; [exact Hl|congruence].
  - injection Hm as <-. rewrite lookup_insert_ne; [exact Hl|congruence].
Qed.

Lemma run_mutations_keeps_tuples (ms : list mutation) (h : gmap loc object)
    (l : loc) (cls : string) (fields : list string) (items : list value) :
  h !! l = Some (OTuple cls fields items) ->
  run_mutations ms h !! l = Some (OTuple cls fields items).
Proof.
  revert h. induction ms as [|m ms IH]; intros h Hl; cbn [run_mutations].
  - exact Hl.
  - destruct (mutate m h) as [e|h'] eqn:Hm.
    + apply IH, Hl.
    + apply IH. eapply mutate_keeps_tuples; eassumption.
Qed.



End Objects.

(** ** [normalize_img] *)

Section Normalize.

Lemma rounds_quotientb_sound v r :
  rounds_quotientb v r = true -> rounds_quotient v r.
Proof.
  unfold rounds_quotientb, rounds_quotient.
  destruct (f32_to_Q r) as [q|]; [|discriminate].
  rewrite !andb_true_iff, !Qle_bool_iff.
  intros [[H1 H2] H3]. exists q. auto.
Qed.

Lemma pixel_values_complete v : is_uint8 v -> In v pixel_values.
Proof.
  intros [Hlo Hhi]. unfold pixel_values.
  apply in_map_iff. exists (Z.to_nat v). split; [lia|].
  apply in_seq. lia.
Qed.

Lemma all_pixels_checked :
  forallb (fun v => rounds_quotientb v (normalize_pixel v)) pixel_values = true.
Proof. vm_compute. reflexivity. Qed.

Lemma normalize_pixel_rounds v :
  is_uint8 v -> rounds_quotient v (normalize_pixel v).
Proof.
  intros Hv. apply rounds_quotientb_sound.
  pose proof all_pixels_checked as Hall.
  rewrite forallb_forall in Hall.
  apply Hall, pixel_values_complete, Hv.
Qed.

(** C1: on an image of [uint8] values, [normalize_img] sends each value
    [v] to the [float32] nearest to [v / 255], which lies in [[0, 1]];
    255 goes to 1.0 and 0 to 0.0. *)
Theorem normalize_img_range {L} (image : list Z) (label : L) :
  Forall is_uint8 image ->
  Forall2 normalized image (fst (normalize_img image label)).
Proof.
  simpl. induction 1 as [|v image Hv _ IH]; simpl; constructor; auto.
  split; [apply normalize_pixel_rounds, Hv|].
  split; intros ->; vm_compute; reflexivity.
Qed.

Lemma normalize_img_range_witness :
  Forall is_uint8 [0; 128; 255]
  /\ Forall2 normalized [0; 128; 255]
       (fst (normalize_img [0; 128; 255] 7)).
Proof.
  assert (H : Forall is_uint8 [0; 128; 255]).
  { repeat constructor; unfold is_uint8; lia. }
  split; [exact H | exact (normalize_img_range [0; 128; 255] 7 H)].
Defined.

(** C9: the label comes back as it went in, and the transformed image
    does not depend on it. *)
Theorem normalize_img_label {L} (image : list Z) (label : L) :
  snd (normalize_img image label) = label
  /\ (forall label' : L,
        fst (normalize_img image label') = fst (normalize_img image label))
  /\ length (fst (normalize_img image label)) = length image.
Proof.
  unfold normalize_img; simpl. rewrite length_map. auto.
Qed.

End Normalize.

(** ** Slices and percent boundaries *)

Section Slices.

Context {A : Type}.

Lemma slice_prefix (k : Z) (l : list A) :
  slice 0 k l = firstn (Z.to_nat k) l.
Proof. unfold slice. rewrite Z.sub_0_r. reflexivity. Qed.

Lemma slice_suffix (k : Z) (l : list A) :
  0 <= k -> slice k (Z.of_nat (length l)) l = skipn (Z.to_nat k) l.
Proof.
  intros Hk. unfold slice. apply firstn_all2.
  rewrite length_skipn. lia.
Qed.

Lemma slice_whole (l : list A) : slice 0 (Z.of_nat (length l)) l = l.
Proof.
  rewrite slice_prefix, Nat2Z.id. apply firstn_all.
Qed.

End Slices.

Lemma round_half_even_error (a d : Z) :
  0 < d -> 2 * Z.abs (d * round_half_even a d - a) <= d.
Proof.
  intros Hd. unfold round_half_even.
  pose proof (Z.div_mod a d ltac:(lia)) as Hdm.
  pose proof (Z.mod_pos_bound a d Hd) as Hr.
  destruct (Z.ltb_spec (2 * (a mod d)) d);
    [|destruct (Z.ltb_spec d (2 * (a mod d))); [|destruct (Z.even (a / d))]];
    nia.
Qed.

Lemma pct_to_abs_closest_90 (n : Z) :
  0 <= n ->
  0 <= pct_to_abs_closest 90 n <= n
  /\ Z.abs (100 * pct_to_abs_closest 90 n - 90 * n) <= 50.
Proof.
  intros Hn. unfold pct_to_abs_closest.
  pose proof (round_half_even_error (90 * n) 100 ltac:(lia)) as Herr.
  lia.
Qed.

(** ** [normalize_img] keeps pixel values apart *)

Section NormalizeOrder.

Lemma normalized_table_ordered :
  forallb
    (fun p =>
       forallb
         (fun q => Bool.eqb (fst p <? fst q) (SFltb (snd p) (snd q)))
         normalized_table)
    normalized_table
  = true.
Proof. vm_compute. reflexivity. Qed.

Lemma normalized_table_complete (v : Z) :
  is_uint8 v -> In (v, normalize_pixel v) normalized_table.
Proof.
  intros Hv. unfold normalized_table.
  apply in_map_iff. exists v. split; [reflexivity|].
  apply pixel_values_complete, Hv.
Qed.

Lemma normalize_pixel_ltb (v v' : Z) :
  is_uint8 v -> is_uint8 v' ->
  SFltb (normalize_pixel v) (normalize_pixel v') = (v <? v').
Proof.
  intros Hv Hv'.
  pose proof normalized_table_ordered as Hall.
  rewrite forallb_forall in Hall.
  specialize (Hall _ (normalized_table_complete v Hv)).
  rewrite forallb_forall in Hall.
  specialize (Hall _ (normalized_table_complete v' Hv')).
  cbn [fst snd] in Hall. symmetry. apply Bool.eqb_prop, Hall.
Qed.

Lemma SFltb_irrefl (x : spec_float) : SFltb x x = false.
Proof.
  unfold SFltb, SFcompare.
  destruct x as [s|s| |s m e]; try destruct s; try reflexivity;
    rewrite Z.compare_refl; fold (Pos.compare m m);
    rewrite Pos.compare_refl; reflexivity.
Qed.

(** X1: on [uint8] values the transform keeps the order, both ways: the
    float of [v] is below the float of [v'] exactly when [v < v']. *)
Theorem normalize_pixel_order (v v' : Z) :
  is_uint8 v -> is_uint8 v' ->
  (SFltb (normalize_pixel v) (normalize_pixel v') = true <-> v < v').
Proof.
  intros Hv Hv'. rewrite (normalize_pixel_ltb v v' Hv Hv').
  apply Z.ltb_lt.
Qed.

Lemma normalize_pixel_order_witness :
  (is_uint8 254 /\ is_uint8 255)
  /\ (SFltb (normalize_pixel 254) (normalize_pixel 255) = true
      <-> 254 < 255).
Proof.
  assert (H254 : is_uint8 254) by (unfold is_uint8; lia).
  assert (H255 : is_uint8 255) by (unfold is_uint8; lia).
  split; [auto|].
  exact (normalize_pixel_order 254 255 H254 H255).
Defined.

Lemma normalize_pixel_injective (v v' : Z) :
  is_uint8 v -> is_uint8 v' ->
  normalize_pixel v = normalize_pixel v' -> v = v'.
Proof.
  intros Hv Hv' Heq.
  pose proof (normalize_pixel_ltb v v' Hv Hv') as H1.
  pose proof (normalize_pixel_ltb v' v Hv' Hv) as H2.
  rewrite Heq, SFltb_irrefl in H1. rewrite Heq, SFltb_irrefl in H2.
  symmetry in H1, H2. apply Z.ltb_ge in H1, H2. lia.
Qed.

(** X2: two images of [uint8] values with the same normalized image are
    the same image, whatever their labels: the transform loses nothing. *)
Theorem normalize_img_injective {L} (a b : list Z) (la lb : L) :
  Forall is_uint8 a -> Forall is_uint8 b ->
  fst (normalize_img a la) = fst (normalize_img b lb) -> a = b.
Proof.
  cbn [normalize_img fst]. intros Ha. revert b.
  induction Ha as [|v a Hv _ IH]; intros b Hb Heq.
  - destruct b; [reflexivity|discriminate].
  - destruct Hb as [|v' b Hv' Hb]; [discriminate|].
    cbn [map] in Heq. injection Heq as Hhead Htail.
    f_equal; [apply normalize_pixel_injective; assumption|].
    apply IH; assumption.
Qed.

Lemma normalize_img_injective_witness :
  (Forall is_uint8 [0; 255] /\ Forall is_uint8 [0; 255]
   /\ fst (normalize_img [0; 255] 1) = fst (normalize_img [0; 255] 2))
  /\ [0; 255] = [0; 255].
Proof.
  assert (H : Forall is_uint8 [0; 255]).
  { repeat constructor; unfold is_uint8; lia. }
  split; [repeat split; assumption|].
  exact (normalize_img_injective [0; 255] [0; 255] 1 2 H H eq_refl).
Defined.

End NormalizeOrder.

(** With the 60000 training examples of MNIST the boundary falls at 54000. *)
Example mnist_boundary : pct_to_abs_closest 90 60000 = 54000.
Proof. reflexivity. Qed.

Lemma pct_to_abs_closest_90_full (n : Z) :
  0 <= n -> (pct_to_abs_closest 90 n = n <-> n < 5).
Proof.
  intros Hn.
  destruct (Z_lt_le_dec n 5) as [Hsmall|Hlarge].
  - assert (Hcase : n = 0 \/ n = 1 \/ n = 2 \/ n = 3 \/ n = 4) by lia.
    destruct Hcase as [->|[->|[->|[->| ->]]]]; split; intros _;
      (reflexivity || lia).
  - destruct (Z.eq_dec n 5) as [->|Hne].
    + split; [intros H; vm_compute in H; discriminate|lia].
    + pose proof (pct_to_abs_closest_90 n Hn) as [_ Herr]. lia.
Qed.

(** ** [prepare_data] *)

Section PrepareData.

Variables (cat : gmap string dataset_source) (hp : HyperParams).
Variables (b : Builder) (tr te : list example).

Hypothesis Hcat : cat !! "mnist" = Some (Prepared b).
Hypothesis Htrain : b_examples b !! "train" = Some tr.
Hypothesis Htest : b_examples b !! "test" = Some te.

Let n : Z := Z.of_nat (length tr).
Let k : Z := pct_to_abs_closest 90 n.

Lemma boundary_in_range : 0 <= k <= n.
Proof. apply pct_to_abs_closest_90. unfold n. lia. Qed.

Lemma train_slice : slice 0 k tr = firstn (Z.to_nat k) tr.
Proof. apply slice_prefix. Qed.

Lemma dev_slice : slice k n tr = skipn (Z.to_nat k) tr.
Proof. apply slice_suffix. apply boundary_in_range. Qed.

Lemma train_slice_length : Z.of_nat (length (slice 0 k tr)) = k.
Proof.
  pose proof boundary_in_range. rewrite train_slice, length_firstn.
  unfold n in *. lia.
Qed.

Lemma dev_slice_length : Z.of_nat (length (slice k n tr)) = n - k.
Proof.
  pose proof boundary_in_range. rewrite dev_slice, length_skipn.
  unfold n in *. lia.
Qed.

Lemma dev_slice_empty_iff : slice k n tr = [] <-> n < 5.
Proof.
  rewrite <- length_zero_iff_nil.
  pose proof dev_slice_length as Hlen.
  pose proof (pct_to_abs_closest_90_full n ltac:(unfold n; lia)) as Hfull.
  fold k in Hfull. lia.
Qed.

Lemma train_slice_empty_iff : slice 0 k tr = [] <-> n = 0.
Proof.
  rewrite <- length_zero_iff_nil.
  pose proof train_slice_length as Hlen.
  pose proof (pct_to_abs_closest_90 n ltac:(unfold n; lia)) as [_ Herr].
  fold k in Herr. lia.
Qed.

Lemma read_split_train_head :
  read_split b "mnist" true "train[:90%]"
  = match slice 0 k tr with
    | [] => raise ValueError
    | _ :: _ => ok (loaded "train" 0 k tr)
    end.
Proof.
  unfold read_split.
  change (parse_split "train[:90%]")
    with (ok {| ri_split := "train"; ri_from := None; ri_to := Some 90;
                ri_unit := UnitPct |}).
  cbn [rbind ok ri_split]. rewrite Htrain. cbn [rbind ok].
  change (rel_to_abs _ (Z.of_nat (length tr)))
    with (ok {| ai_split := "train"; ai_from := 0; ai_to := k |}).
  cbn [rbind ok ai_from ai_to]. unfold loaded.
  destruct (slice 0 k tr); reflexivity.
Qed.

Lemma read_split_train_tail :
  read_split b "mnist" true "train[90%:]"
  = match slice k n tr with
    | [] => raise ValueError
    | _ :: _ => ok (loaded "train" k n tr)
    end.
Proof.
  unfold read_split.
  change (parse_split "train[90%:]")
    with (ok {| ri_split := "train"; ri_from := Some 90; ri_to := None;
                ri_unit := UnitPct |}).
  cbn [rbind ok ri_split]. rewrite Htrain. cbn [rbind ok].
  change (rel_to_abs _ (Z.of_nat (length tr)))
    with (ok {| ai_split := "train"; ai_from := k; ai_to := n |}).
  cbn [rbind ok ai_from ai_to]. unfold loaded.
  destruct (slice k n tr); reflexivity.
Qed.

Lemma read_split_test :
  read_split b "mnist" true "test"
  = match te with
    | [] => raise ValueError
    | _ :: _ => ok (loaded "test" 0 (Z.of_nat (length te)) te)
    end.
Proof.
  unfold read_split.
  change (parse_split "test")
    with (ok {| ri_split := "test"; ri_from := None; ri_to := None;
                ri_unit := UnitAbs |}).
  cbn [rbind ok ri_split]. rewrite Htest. cbn [rbind ok].
  unfold rel_to_abs; cbn [ri_unit ri_from ri_to ri_split].
  rewrite Z.leb_refl.
  assert (Hle : (0 <=? Z.of_nat (length te)) = true) by (apply Z.leb_le; lia).
  rewrite Hle. cbn [andb rbind ok ai_from ai_to]. unfold loaded.
  rewrite slice_whole. destruct te; reflexivity.
Qed.

Lemma tfds_load_mnist :
  tfds_load cat "mnist" ["train[:90%]"; "train[90%:]"; "test"] true
  = if sizes_ok tr te
    then ok ([loaded "train" 0 k tr; loaded "train" k n tr;
              loaded "test" 0 (Z.of_nat (length te)) te],
             builder_info b)
    else raise ValueError.
Proof.
  unfold tfds_load. rewrite Hcat. cbn [mapM_result].
  rewrite read_split_train_head, read_split_train_tail, read_split_test.
  unfold sizes_ok. fold n.
  destruct (Z.leb_spec 5 n) as [Hbig|Hsmall]; cbn [andb].
  - destruct (slice 0 k tr) eqn:Hhead.
    { apply train_slice_empty_iff in Hhead. lia. }
    destruct (slice k n tr) eqn:Htail.
    { apply dev_slice_empty_iff in Htail. lia. }
    destruct te; reflexivity.
  - assert (Htail : slice k n tr = []) by (apply dev_slice_empty_iff; lia).
    rewrite Htail. destruct (slice 0 k tr); reflexivity.
Qed.

(** [prepare_data] on a catalog that holds the two splits: what it does. *)
Lemma prepare_data_eq :
  prepare_data cat hp
  = if sizes_ok tr te
    then if 0 <? batch_size hp
         then ok (prepared hp b tr te)
         else raise InvalidArgumentError
    else raise ValueError.
Proof.
  unfold prepare_data. rewrite tfds_load_mnist.
  destruct (sizes_ok tr te) eqn:Hsizes; [|reflexivity].
  cbn [rbind ok]. unfold getitem, builder_info; cbn [splits].
  rewrite lookup_fmap, Htrain. cbn [fmap option_fmap option_map rbind ok].
  cbn [num_examples]. unfold ds_shuffle.
  assert (Hpos : (0 <? Z.of_nat (length tr)) = true).
  { apply Z.ltb_lt. unfold sizes_ok in Hsizes.
    apply andb_true_iff in Hsizes as [Hfive _].
    apply Z.leb_le in Hfive. unfold n in Hfive. lia. }
  rewrite Hpos. cbn [orb rbind ok]. unfold ds_batch.
  destruct (0 <? batch_size hp); reflexivity.
Qed.

Lemma sizes_ok_iff : sizes_ok tr te = true <-> 5 <= n /\ te <> [].
Proof.
  unfold sizes_ok. fold n. rewrite andb_true_iff, Z.leb_le.
  destruct te; intuition congruence.
Qed.

Lemma prepare_data_returns :
  5 <= n -> te <> [] -> 0 < batch_size hp ->
  prepare_data cat hp = ok (prepared hp b tr te).
Proof.
  intros Hn Hte Hbs. rewrite prepare_data_eq.
  rewrite (proj2 sizes_ok_iff (conj Hn Hte)).
  apply Z.ltb_lt in Hbs. now rewrite Hbs.
Qed.

Lemma prepare_data_inv (r : pyobj) :
  prepare_data cat hp = ok r ->
  5 <= n /\ te <> [] /\ 0 < batch_size hp /\ r = prepared hp b tr te.
Proof.
  rewrite prepare_data_eq.
  destruct (sizes_ok tr te) eqn:Hsizes; [|discriminate].
  apply sizes_ok_iff in Hsizes as [Hn Hte].
  destruct (Z.ltb_spec 0 (batch_size hp)); [|discriminate].
  intros Heq. injection Heq as <-. auto.
Qed.


(** C4, as the code has it: when [prepare_data] returns, every pipeline
    maps [normalize_img] over its examples, batches by [hp.batch_size],
    caches and prefetches; only the train pipeline shuffles its examples,
    with a buffer as large as the whole stored training split.  Shuffling
    of the input files was asked of [tfds.load] for all three.
    The stored training split is taken to hold fewer than 2^53 examples,
    for which the boundary the library computes in binary64 is the exact
    one. *)
Theorem prepare_data_pipelines (r : pyobj) :
  Z.of_nat (length tr) < 2 ^ 53 ->
  prepare_data cat hp = ok r ->
  exists train dev test info,
    r = PyTuple [PyDataset train; PyDataset dev; PyDataset test; PyInfo info]
    /\ ds_ops train = [OpMap normalize_img AUTOTUNE; OpCache; OpShuffle n;
                       OpBatch (batch_size hp); OpPrefetch AUTOTUNE]
    /\ ds_ops dev = [OpMap normalize_img AUTOTUNE; OpBatch (batch_size hp);
                     OpCache; OpPrefetch AUTOTUNE]
    /\ ds_ops test = [OpMap normalize_img AUTOTUNE; OpBatch (batch_size hp);
                      OpCache; OpPrefetch AUTOTUNE]
    /\ Forall (fun d => configures is_batch d = true
                        /\ configures is_cache d = true
                        /\ configures is_prefetch d = true
                        /\ ds_shuffle_files d = true)
         [train; dev; test]
    /\ configures is_shuffle train = true
    /\ configures is_shuffle dev = false
    /\ configures is_shuffle test = false.
Proof.
  intros _ Hrun. apply prepare_data_inv in Hrun as (_ & _ & _ & ->).
  do 4 eexists. split; [reflexivity|].
  repeat split; repeat constructor.
Qed.


(** X4: when [prepare_data] returns, the train pipeline has one shuffle,
    whose buffer is the size of the whole stored training split, as
    [info] reports it; that is at least the number of examples the train
    pipeline reads, so the buffer holds them all.
    The stored training split is taken to hold fewer than 2^53 examples,
    for which the boundary the library computes in binary64 is the exact
    one. *)
Theorem shuffle_buffer_covers_train (r : pyobj) :
  Z.of_nat (length tr) < 2 ^ 53 ->
  prepare_data cat hp = ok r ->
  exists train dev test info,
    r = PyTuple [PyDataset train; PyDataset dev; PyDataset test; PyInfo info]
    /\ splits info !! "train" = Some {| num_examples := n |}
    /\ filter (fun op => is_shuffle op = true) (ds_ops train) = [OpShuffle n]
    /\ Z.of_nat (length (ds_examples train)) <= n.
Proof.
  intros _ Hrun. apply prepare_data_inv in Hrun as (_ & _ & _ & ->).
  do 4 eexists. split; [reflexivity|].
  split.
  { unfold builder_info; cbn [splits]. rewrite lookup_fmap, Htrain.
    reflexivity. }
  split; [reflexivity|].
  unfold train_pipeline.
  cbn [ds_examples ds_prefetch ds_cache ds_map ds_apply loaded].
  fold n k. pose proof train_slice_length. pose proof boundary_in_range. lia.
Qed.

(** X5: when [prepare_data] returns, none of its three pipelines is empty;
    the stored training split then has at least five examples, of which
    the train pipeline reads at least four.
    The stored training split is taken to hold fewer than 2^53 examples,
    for which the boundary the library computes in binary64 is the exact
    one. *)
Theorem pipelines_are_not_empty (r : pyobj) :
  Z.of_nat (length tr) < 2 ^ 53 ->
  prepare_data cat hp = ok r ->
  exists train dev test info,
    r = PyTuple [PyDataset train; PyDataset dev; PyDataset test; PyInfo info]
    /\ ds_examples train <> []
    /\ ds_examples dev <> []
    /\ ds_examples test <> []
    /\ (5 <= length tr)%nat
    /\ (4 <= length (ds_examples train))%nat.
Proof.
  intros _ Hrun. apply prepare_data_inv in Hrun as (Hn & Hte & _ & ->).
  do 4 eexists. split; [reflexivity|].
  unfold train_pipeline, dev_pipeline, test_pipeline. fold n k.
  cbn [ds_examples ds_prefetch ds_cache ds_map ds_apply loaded].
  pose proof train_slice_length as Hlen.
  pose proof (pct_to_abs_closest_90 n ltac:(unfold n; lia)) as [_ Herr].
  fold k in Herr.
  repeat split.
  - intros Hnil. apply train_slice_empty_iff in Hnil. lia.
  - intros Hnil. apply dev_slice_empty_iff in Hnil. lia.
  - rewrite slice_whole. exact Hte.
  - unfold n in Hn. lia.
  - lia.
Qed.

End PrepareData.

(** X3: [prepare_data] returns only if the catalog can hand out ['mnist'],
    the dataset has a train and a test split, with at least five training
    examples (so that the last tenth is not empty) and a test example, and
    [hp.batch_size] is positive.  The subscript [info.splits['train']] of
    line 33 then finds its key. *)
Theorem prepare_data_returns_only_if (cat : gmap string dataset_source)
    (hp : HyperParams) (r : pyobj) :
  prepare_data cat hp = ok r ->
  exists b tr te,
    cat !! "mnist" = Some (Prepared b)
    /\ b_examples b !! "train" = Some tr
    /\ b_examples b !! "test" = Some te
    /\ (5 <= length tr)%nat
    /\ te <> []
    /\ 0 < batch_size hp
    /\ is_Some (splits (builder_info b) !! "train").
Proof.
  intros Hrun.
  destruct (cat !! "mnist") as [[b|]|] eqn:Hcat;
    [|unfold prepare_data, tfds_load in Hrun; rewrite Hcat in Hrun;
      discriminate Hrun..].
  destruct (b_examples b !! "train") as [tr|] eqn:Htrain.
  - destruct (b_examples b !! "test") as [te|] eqn:Htest.
    + destruct (prepare_data_inv cat hp b tr te Hcat Htrain Htest r Hrun)
        as (Hn & Hte & Hbs & _).
      exists b, tr, te. repeat split; auto; [lia|].
      unfold builder_info; cbn [splits]. rewrite lookup_fmap, Htrain.
      cbn. eauto.
    + exfalso. unfold prepare_data, tfds_load in Hrun. rewrite Hcat in Hrun.
      cbn [mapM_result] in Hrun.
      rewrite (read_split_train_head b tr Htrain),
        (read_split_train_tail b tr Htrain) in Hrun.
      unfold read_split at 1 in Hrun.
      change (parse_split "test")
        with (ok {| ri_split := "test"; ri_from := None; ri_to := None;
                    ri_unit := UnitAbs |}) in Hrun.
      cbn [rbind ok ri_split] in Hrun. rewrite Htest in Hrun.
      destruct (slice 0 _ tr); [discriminate Hrun|].
      destruct (slice _ _ tr); discriminate Hrun.
  - exfalso. unfold prepare_data, tfds_load in Hrun. rewrite Hcat in Hrun.
    cbn [mapM_result] in Hrun. unfold read_split at 1 in Hrun.
    change (parse_split "train[:90%]")
      with (ok {| ri_split := "train"; ri_from := None; ri_to := Some 90;
                  ri_unit := UnitPct |}) in Hrun.
    cbn [rbind ok ri_split] in Hrun. rewrite Htrain in Hrun.
    discriminate Hrun.
Qed.

Lemma sample_prepared :
  prepare_data sample_catalog sample_hp
  = ok (prepared sample_hp sample_builder sample_train sample_test).
Proof.
  apply prepare_data_returns; try reflexivity; try (cbn; lia); discriminate.
Qed.

Lemma sample_size : Z.of_nat (length sample_train) < 2 ^ 53.
Proof. cbn. lia. Qed.

Ltac sample_environment :=
  split; [reflexivity|]; split; [reflexivity|]; split; [reflexivity|];
  split; [apply sample_size|apply sample_prepared].


Lemma prepare_data_pipelines_witness :
  (sample_catalog !! "mnist" = Some (Prepared sample_builder)
   /\ b_examples sample_builder !! "train" = Some sample_train
   /\ b_examples sample_builder !! "test" = Some sample_test
   /\ Z.of_nat (length sample_train) < 2 ^ 53
   /\ prepare_data sample_catalog sample_hp
      = ok (prepared sample_hp sample_builder sample_train sample_test))
  /\ exists train dev test info,
       prepared sample_hp sample_builder sample_train sample_test
       = PyTuple [PyDataset train; PyDataset dev; PyDataset test; PyInfo info]
       /\ ds_ops train = [OpMap normalize_img AUTOTUNE; OpCache; OpShuffle 15;
                          OpBatch 100; OpPrefetch AUTOTUNE]
       /\ ds_ops dev = [OpMap normalize_img AUTOTUNE; OpBatch 100;
                        OpCache; OpPrefetch AUTOTUNE]
       /\ ds_ops test = ds_ops dev.
Proof.
  split; [sample_environment|].
  destruct (prepare_data_pipelines sample_catalog sample_hp sample_builder
              sample_train sample_test eq_refl eq_refl eq_refl _
              sample_size sample_prepared)
    as (train & dev & test & info & Hr & Htr & Hdev & Hte & _).
  exists train, dev, test, info.
  rewrite Hte, Hdev. repeat split; assumption.
Defined.

(** C4 as stated fails: on the sample catalog the dev pipeline has no
    shuffle among its transformations, so not all three pipelines have the
    four kinds configured. *)
Lemma not_every_split_shuffles :
  exists train dev test info,
    prepare_data sample_catalog sample_hp
    = ok (PyTuple [PyDataset train; PyDataset dev; PyDataset test;
                   PyInfo info])
    /\ configures is_shuffle dev = false
    /\ ~ Forall (fun d => configures is_batch d = true
                          /\ configures is_shuffle d = true
                          /\ configures is_cache d = true
                          /\ configures is_prefetch d = true)
                [train; dev; test].
Proof.
  do 4 eexists. split; [exact sample_prepared|].
  split; [reflexivity|].
  intros Hall.
  inversion Hall as [|? ? _ Hrest]; subst.
  inversion Hrest as [|? ? (_ & Hshuffle & _) _]; subst.
  discriminate Hshuffle.
Qed.



Lemma shuffle_buffer_covers_train_witness :
  (sample_catalog !! "mnist" = Some (Prepared sample_builder)
   /\ b_examples sample_builder !! "train" = Some sample_train
   /\ b_examples sample_builder !! "test" = Some sample_test
   /\ Z.of_nat (length sample_train) < 2 ^ 53
   /\ prepare_data sample_catalog sample_hp
      = ok (prepared sample_hp sample_builder sample_train sample_test))
  /\ exists train dev test info,
       prepared sample_hp sample_builder sample_train sample_test
       = PyTuple [PyDataset train; PyDataset dev; PyDataset test; PyInfo info]
       /\ filter (fun op => is_shuffle op = true) (ds_ops train)
          = [OpShuffle 15]
       /\ Z.of_nat (length (ds_examples train)) <= 15.
Proof.
  split; [sample_environment|].
  destruct (shuffle_buffer_covers_train sample_catalog sample_hp
              sample_builder sample_train sample_test
              eq_refl eq_refl eq_refl _ sample_size sample_prepared)
    as (train & dev & test & info & Hr & _ & Hops & Hlen).
  exists train, dev, test, info. repeat split; assumption.
Defined.

Lemma pipelines_are_not_empty_witness :
  (sample_catalog !! "mnist" = Some (Prepared sample_builder)
   /\ b_examples sample_builder !! "train" = Some sample_train
   /\ b_examples sample_builder !! "test" = Some sample_test
   /\ Z.of_nat (length sample_train) < 2 ^ 53
   /\ prepare_data sample_catalog sample_hp
      = ok (prepared sample_hp sample_builder sample_train sample_test))
  /\ exists train dev test info,
       prepared sample_hp sample_builder sample_train sample_test
       = PyTuple [PyDataset train; PyDataset dev; PyDataset test; PyInfo info]
       /\ ds_examples dev <> [].
Proof.
  split; [sample_environment|].
  destruct (pipelines_are_not_empty sample_catalog sample_hp
              sample_builder sample_train sample_test
              eq_refl eq_refl eq_refl _ sample_size sample_prepared)
    as (train & dev & test & info & Hr & _ & Hdev & _).
  exists train, dev, test, info. split; assumption.
Defined.

Lemma prepare_data_returns_only_if_witness :
  prepare_data sample_catalog sample_hp
  = ok (prepared sample_hp sample_builder sample_train sample_test)
  /\ exists b tr te,
       sample_catalog !! "mnist" = Some (Prepared b)
       /\ b_examples b !! "train" = Some tr
       /\ b_examples b !! "test" = Some te
       /\ (5 <= length tr)%nat.
Proof.
  split; [apply sample_prepared|].
  destruct (prepare_data_returns_only_if sample_catalog sample_hp _
              sample_prepared)
    as (b & tr & te & Hb & Htr & Hte & Hn & _).
  exists b, tr, te. repeat split; assumption.
Defined.

(** ** The network *)

Section Network.

Local Notation "'hidden_step'" :=
  (fun hidden hidden_size =>
     call dense <- keras_Dense hidden_size (Some relu) (Some l2);
     ok (Apply dense hidden)).

(** The loop of lines 58-60 goes through if and only if no width is
    negative, and then stacks one dense layer per width. *)
Lemma for_each_dense (widths : list Z) (t t' : ktensor) :
  for_each hidden_step widths t = ok t' ->
  Forall (fun width => 0 <= width) widths
  /\ t' = fold_left
            (fun hidden hidden_size =>
               Apply (Dense hidden_size (Some relu) (Some l2)) hidden)
            widths t.
Proof.
  revert t. induction widths as [|w widths IH]; intros t Hrun;
    cbn [for_each fold_left] in *.
  - injection Hrun as <-. split; [constructor|reflexivity].
  - unfold keras_Dense in Hrun at 1.
    destruct (w <? 0) eqn:Hneg; [discriminate Hrun|].
    cbn [rbind ok] in Hrun. apply IH in Hrun as [Hall ->].
    apply Z.ltb_ge in Hneg. split; [constructor; assumption|reflexivity].
Qed.

Lemma for_each_dense_returns (widths : list Z) (t : ktensor) :
  Forall (fun width => 0 <= width) widths ->
  for_each hidden_step widths t
  = ok (fold_left
          (fun hidden hidden_size =>
             Apply (Dense hidden_size (Some relu) (Some l2)) hidden)
          widths t).
Proof.
  intros Hall. revert t.
  induction Hall as [|w widths Hw _ IH]; intros t; cbn [for_each fold_left].
  - reflexivity.
  - unfold keras_Dense at 1.
    apply Z.ltb_ge in Hw. rewrite Hw. cbn [rbind ok]. apply IH.
Qed.

Lemma layers_of_hidden (widths : list Z) (t : ktensor) :
  layers_of
    (fold_left
       (fun hidden hidden_size =>
          Apply (Dense hidden_size (Some relu) (Some l2)) hidden)
       widths t)
  = (layers_of t
     ++ map (fun width => Dense width (Some relu) (Some l2)) widths)%list.
Proof.
  revert t. induction widths as [|w widths IH]; intros t; cbn [fold_left map].
  - now rewrite app_nil_r.
  - rewrite IH. cbn [layers_of]. now rewrite <- app_assoc.
Qed.

Lemma input_of_hidden (widths : list Z) (t : ktensor) :
  input_of
    (fold_left
       (fun hidden hidden_size =>
          Apply (Dense hidden_size (Some relu) (Some l2)) hidden)
       widths t)
  = input_of t.
Proof.
  revert t. induction widths as [|w widths IH]; intros t; cbn [fold_left].
  - reflexivity.
  - now rewrite IH.
Qed.

(** What [build_model] has built when it returns. *)
Lemma build_model_inv (info : DatasetInfo) (hp : HyperParams) (m0 : Model) :
  build_model info hp = ok m0 ->
  exists image hidden,
    features info !! "image" = Some image
    /\ Forall (fun width => 0 <= width) (hidden_layers hp)
    /\ m0 = keras_Model (Input (shape image))
              (Apply (Dense 10 (Some softmax) None) hidden)
    /\ layers_of hidden
       = (Flatten
          :: map (fun width => Dense width (Some relu) (Some l2))
               (hidden_layers hp)
          ++ [Dropout 0.5])%list
    /\ input_of hidden = Input (shape image).
Proof.
  unfold build_model, getitem. intros Hrun.
  destruct (features info !! "image") as [image|]; [|discriminate Hrun].
  cbn [rbind ok] in Hrun.
  destruct (for_each _ (hidden_layers hp) _) as [e|hidden] eqn:Hloop;
    [discriminate Hrun|].
  apply for_each_dense in Hloop as [Hall ->].
  cbn in Hrun. injection Hrun as <-.
  exists image. eexists. split; [reflexivity|]. split; [exact Hall|].
  split; [reflexivity|]. cbn [layers_of input_of].
  rewrite layers_of_hidden, input_of_hidden. split; reflexivity.
Qed.

(** It returns whenever the dataset has an ['image'] feature and no width
    is negative. *)
Lemma build_model_returns (info : DatasetInfo) (hp : HyperParams)
    (image : FeatureInfo) :
  features info !! "image" = Some image ->
  Forall (fun width => 0 <= width) (hidden_layers hp) ->
  exists m0, build_model info hp = ok m0.
Proof.
  intros Himage Hall. unfold build_model, getitem. rewrite Himage.
  cbn [rbind ok]. rewrite (for_each_dense_returns _ _ Hall).
  eexists. reflexivity.
Qed.

End Network.

(** ** Early stopping *)

Section Staleness.

Lemma stale_scan_snoc (best : option float64) (run : nat)
    (losses : list float64) (c : float64) :
  stale_scan best run (losses ++ [c])
  = let (best', run') := stale_scan best run losses in
    if is_improvement c best' then (Some c, 0%nat) else (best', S run').
Proof.
  revert best run.
  induction losses as [|d losses IH]; intros best run; cbn [stale_scan app].
  - destruct (is_improvement c best); reflexivity.
  - destruct (is_improvement d best); apply IH.
Qed.

Lemma stale_scan_bound (best : option float64) (run : nat)
    (losses : list float64) :
  (snd (stale_scan best run losses) <= run + length losses)%nat.
Proof.
  revert best run.
  induction losses as [|d losses IH]; intros best run; cbn [stale_scan length].
  - cbn. lia.
  - destruct (is_improvement d best).
    + specialize (IH (Some d) 0%nat). lia.
    + specialize (IH best (S run)). lia.
Qed.

Lemma stale_epochs_le_length (v : keras_version) (losses : list float64) :
  (stale_epochs v losses <= length losses)%nat.
Proof. apply (stale_scan_bound (initial_best v) 0). Qed.

Lemma stale_epochs_snoc (v : keras_version) (losses : list float64)
    (c : float64) :
  (stale_epochs v (losses ++ [c]) <= S (stale_epochs v losses))%nat.
Proof.
  unfold stale_epochs. rewrite stale_scan_snoc.
  destruct (stale_scan (initial_best v) 0 losses) as [best run].
  destruct (is_improvement c best); cbn [snd]; lia.
Qed.

End Staleness.

Section FitLoop.

Variables (be : Backend) (m : Model) (x val : Dataset).

Lemma trained_length (j : nat) (w w' : weights be)
    (history : list (gmap string float64)) (losses : list float64) :
  trained be m x val j w history losses w' ->
  length losses = length history.
Proof. induction 1; cbn [length]; congruence. Qed.

(** One more epoch at the end of a training. *)
Lemma trained_snoc (j : nat) (w w1 w2 : weights be)
    (history : list (gmap string float64)) (losses : list float64)
    (train_logs logs : gmap string float64) (loss : float64) :
  trained be m x val j w history losses w1 ->
  train_epoch be m x (Z.of_nat (j + length history)) w1
  = ok (w2, train_logs) ->
  compute_loss be m val w2 = ok loss ->
  logs !! "val_loss" = Some loss ->
  trained be m x val j w (history ++ [logs]) (losses ++ [loss]) w2.
Proof.
  intros Htrained. revert w2.
  induction Htrained as [j w|j w wa wb tl lg ls history losses Ht Hl Hg _ IH];
    intros w2 Hstep Hloss Hlogs; cbn [app length] in *.
  - rewrite Nat.add_0_r in Hstep.
    eapply trained_epoch; eauto. constructor.
  - eapply trained_epoch; eauto. apply IH; auto.
    replace (S j + length history)%nat with (j + S (length history))%nat
      by lia.
    exact Hstep.
Qed.

(** With nothing trained the state is the one started from. *)
Lemma trained_nil (j : nat) (w w' : weights be) (losses : list float64) :
  trained be m x val j w [] losses w' -> w' = w /\ losses = [].
Proof. inversion 1; subst; auto. Qed.

(** The validation pass of the script's compile step logs the loss it
    computed as [val_loss]. *)
Lemma val_loss_logged (train_logs : gmap string float64) (w : weights be)
    (val_logs : list (string * float64)) :
  validation_logs be m script_config val w = ok val_logs ->
  exists loss,
    compute_loss be m val w = ok loss
    /\ logs_update train_logs val_logs !! "val_loss" = Some loss.
Proof.
  unfold validation_logs. intros Hrun.
  destruct (compute_loss be m val w) as [e|loss]; [discriminate Hrun|].
  cbn [rbind ok script_config cc_metrics mapM_result] in Hrun.
  destruct (compute_metric be m _ val w) as [e|acc]; [discriminate Hrun|].
  cbn in Hrun. injection Hrun as <-.
  exists loss. split; [reflexivity|].
  unfold logs_update; cbn.
  rewrite lookup_insert_ne by discriminate.
  apply lookup_insert_eq.
Qed.

(** The script's callback at the end of an epoch whose validation loss is
    [c], under either release. *)
Lemma es_on_epoch_end_val_loss (epoch : Z) (logs : gmap string float64)
    (es : es_state) (c : float64) :
  logs !! "val_loss" = Some c ->
  let r := es_on_epoch_end (keras be) (EarlyStopping "val_loss" 5)
             epoch logs es in
  es_wait es >= 0 ->
  es_wait (fst r)
  = (if is_improvement c (es_best es) then 0 else es_wait es + 1)
  /\ es_best (fst r)
     = (if is_improvement c (es_best es) then Some c else es_best es)
  /\ snd r = (5 <=? es_wait (fst r)) && (0 <? epoch).
Proof.
  intros Hlook r Hwait. subst r. cbn [es_on_epoch_end]. rewrite Hlook.
  cbv zeta.
  destruct (is_improvement c (es_best es)), (keras be);
    cbn [negb andb];
    try match goal with
        | |- context [if ?stop then _ else _] => destruct stop eqn:Hstop
        end;
    cbn [fst snd es_wait es_best]; rewrite ?Hstop; auto.
Qed.

Variable w0 : weights be.

(** One epoch from a state that satisfies the invariant. *)
Lemma fit_epoch_step (st st' : fit_state be) (losses : list float64)
    (es : es_state) :
  trained be m x val 0 w0 (fs_history st) losses (fs_weights st) ->
  fs_callbacks st = [(EarlyStopping "val_loss" 5, es)] ->
  es_wait es = Z.of_nat (stale_epochs (keras be) losses) ->
  es_best es = best_loss (keras be) losses ->
  fit_epoch be m script_config x val (Z.of_nat (length (fs_history st))) st
  = ok st' ->
  exists loss es',
    trained be m x val 0 w0 (fs_history st') (losses ++ [loss])
      (fs_weights st')
    /\ length (fs_history st') = S (length (fs_history st))
    /\ fs_callbacks st' = [(EarlyStopping "val_loss" 5, es')]
    /\ es_wait es' = Z.of_nat (stale_epochs (keras be) (losses ++ [loss]))
    /\ es_best es' = best_loss (keras be) (losses ++ [loss])
    /\ fs_stop_training st'
       = ((5 <=? stale_epochs (keras be) (losses ++ [loss]))%nat
          && (0 <? length (fs_history st))%nat).
Proof.
  intros Htrained Hcbs Hwait Hbest Hrun.
  unfold fit_epoch in Hrun.
  destruct (train_epoch be m x _ (fs_weights st)) as [e|[w train_logs]]
    eqn:Htrain; [discriminate Hrun|].
  cbn [rbind ok] in Hrun.
  destruct (validation_logs be m script_config val w) as [e|val_logs]
    eqn:Hval; [discriminate Hrun|].
  cbn [rbind ok] in Hrun.
  destruct (val_loss_logged train_logs w val_logs Hval)
    as (loss & Hloss & Hlook).
  set (logs := logs_update train_logs val_logs) in *.
  rewrite Hcbs in Hrun. cbn [callbacks_on_epoch_end] in Hrun.
  assert (Hnonneg : es_wait es >= 0) by lia.
  destruct (es_on_epoch_end_val_loss (Z.of_nat (length (fs_history st)))
              logs es loss Hlook Hnonneg)
    as (Hwait' & Hbest' & Hstop).
  destruct (es_on_epoch_end (keras be) (EarlyStopping "val_loss" 5)
              (Z.of_nat (length (fs_history st))) logs es)
    as [es' stop].
  cbn [fst snd] in Hwait', Hbest', Hstop.
  injection Hrun as <-.
  cbn [fs_history fs_weights fs_callbacks fs_stop_training].
  assert (Hnew : es_wait es'
                 = Z.of_nat (stale_epochs (keras be) (losses ++ [loss]))
                 /\ es_best es' = best_loss (keras be) (losses ++ [loss])).
  { unfold stale_epochs, best_loss in *.
    rewrite stale_scan_snoc.
    destruct (stale_scan (initial_best (keras be)) 0 losses) as [best run].
    cbn [fst snd] in Hwait, Hbest. rewrite Hwait, Hbest in *.
    destruct (is_improvement loss best); cbn [fst snd]; split;
      lia || assumption. }
  destruct Hnew as [Hw1 Hb1].
  exists loss, es'.
  split.
  { eapply trained_snoc; eauto. }
  split; [rewrite length_app; cbn [length]; lia|].
  split; [reflexivity|]. split; [exact Hw1|]. split; [exact Hb1|].
  rewrite orb_false_r, Hstop, Hw1. f_equal.
  - apply eq_true_iff_eq. rewrite Z.leb_le, Nat.leb_le. lia.
  - apply eq_true_iff_eq. rewrite Z.ltb_lt, Nat.ltb_lt. lia.
Qed.

(** The epoch loop, entered with [n] epochs left. *)
Lemma fit_loop_outcome (n : nat) (st st' : fit_state be) :
  fit_invariant be m x val w0 st ->
  fit_loop be m script_config x val n
    (Z.of_nat (length (fs_history st))) st
  = ok st' ->
  fit_outcome be m x val w0 (length (fs_history st) + n)
    (fs_weights st') (fs_history st').
Proof.
  revert st. induction n as [|n IH];
    intros st (losses & es & Htrained & Hcbs & Hwait & Hbest & Hfresh) Hrun.
  - cbn [fit_loop] in Hrun. injection Hrun as <-.
    exists losses. split; [exact Htrained|].
    split; [lia|]. split; [|lia].
    intros j Hj. apply Hfresh. lia.
  - cbn [fit_loop] in Hrun.
    destruct (fit_epoch be m script_config x val _ st) as [e|st1] eqn:Hstep;
      [discriminate Hrun|].
    cbn [rbind ok] in Hrun.
    destruct (fit_epoch_step st st1 losses es Htrained Hcbs Hwait Hbest Hstep)
      as (loss & es' & Htrained' & Hlen & Hcbs' & Hwait' & Hbest' & Hstop).
    pose proof (trained_length _ _ _ _ _ Htrained) as Hlosses.
    pose proof (stale_epochs_snoc (keras be) losses loss) as Hgrow.
    pose proof (Hfresh (length losses) (Nat.le_refl _)) as Hlast.
    rewrite firstn_all in Hlast.
    assert (Hprefix : forall j, (j <= length losses)%nat ->
              (stale_epochs (keras be) (firstn j (losses ++ [loss])) < 5)%nat).
    { intros j Hj. rewrite firstn_app.
      replace (j - length losses)%nat with 0%nat by lia.
      cbn [firstn]. rewrite app_nil_r. apply Hfresh, Hj. }
    destruct (fs_stop_training st1).
    + injection Hrun as <-.
      symmetry in Hstop. apply andb_true_iff in Hstop as [Hfive _].
      apply Nat.leb_le in Hfive.
      exists (losses ++ [loss])%list. split; [exact Htrained'|].
      split; [lia|]. split; [|lia].
      intros j Hj. rewrite length_app in Hj. cbn [length] in Hj.
      apply Hprefix. lia.
    + assert (Hinv : fit_invariant be m x val w0 st1).
      { exists (losses ++ [loss])%list, es'.
        repeat (split; [assumption|]).
        intros j Hj. rewrite length_app in Hj. cbn [length] in Hj.
        destruct (Nat.eq_dec j (S (length losses))) as [->|Hne].
        - rewrite firstn_all2 by (rewrite length_app; cbn [length]; lia).
          symmetry in Hstop. apply andb_false_iff in Hstop as [Hfive|Hzero].
          + apply Nat.leb_gt in Hfive. exact Hfive.
          + apply Nat.ltb_ge in Hzero.
            pose proof (stale_epochs_le_length (keras be) (losses ++ [loss]))
              as Hle.
            rewrite length_app in Hle. cbn [length] in Hle. lia.
        - apply Hprefix. lia. }
      replace (Z.of_nat (length (fs_history st)) + 1)
        with (Z.of_nat (length (fs_history st1))) in Hrun by lia.
      specialize (IH st1 Hinv Hrun). rewrite Hlen in IH.
      replace (length (fs_history st) + S n)%nat
        with (S (length (fs_history st)) + n)%nat by lia.
      exact IH.
Qed.

(** [fit] on a model compiled as the script compiles it, with the script's
    callback: what it has done when it returns. *)
Lemma keras_fit_outcome (epochs : Z) (w : weights be)
    (history : list (gmap string float64)) :
  compiled m = Some script_config ->
  keras_fit be m w0 x epochs val [EarlyStopping "val_loss" 5]
  = ok (w, history) ->
  fit_outcome be m x val w0 (Z.to_nat epochs) w history.
Proof.
  intros Hcompiled Hrun. unfold keras_fit in Hrun. rewrite Hcompiled in Hrun.
  cbv zeta in Hrun. cbn [map] in Hrun.
  set (st0 := {| fs_weights := w0;
                 fs_callbacks :=
                   [(EarlyStopping "val_loss" 5,
                     es_on_train_begin (keras be))];
                 fs_history := [];
                 fs_stop_training := false |}) in *.
  destruct (fit_loop be m script_config x val (Z.to_nat epochs) 0 st0)
    as [e|st] eqn:Hloop; [discriminate Hrun|].
  cbn [rbind ok] in Hrun. injection Hrun as <- <-.
  apply (fit_loop_outcome (Z.to_nat epochs) st0); [|exact Hloop].
  exists [], (es_on_train_begin (keras be)).
  cbn [fs_history fs_weights fs_callbacks length st0].
  split; [constructor|]. repeat (split; [reflexivity|]).
  intros j Hj. replace j with 0%nat by lia. cbn. lia.
Qed.

(** [evaluate] on such a model: the loss and the accuracy the engine
    computed, in that order. *)
Lemma keras_evaluate_inv (w : weights be) (d : Dataset)
    (results : list float64) :
  compiled m = Some script_config ->
  keras_evaluate be m w d = ok results ->
  exists loss acc,
    results = [loss; acc]
    /\ compute_loss be m d w = ok loss
    /\ compute_metric be m (SparseCategoricalAccuracy "accuracy") d w
       = ok acc.
Proof.
  intros Hcompiled Hrun. unfold keras_evaluate in Hrun.
  rewrite Hcompiled in Hrun.
  destruct (compute_loss be m d w) as [e|loss]; [discriminate Hrun|].
  cbn [rbind ok script_config cc_metrics mapM_result] in Hrun.
  destruct (compute_metric be m _ d w) as [e|acc]; [discriminate Hrun|].
  cbn in Hrun. injection Hrun as <-.
  exists loss, acc. repeat split.
Qed.

End FitLoop.

(** ** How long training lasts *)

Section TrainingLength.

Variables (be : Backend) (m : Model) (x val : Dataset) (w0 : weights be).

(** At least five epochs run, if that many are allowed. *)
Lemma fit_outcome_at_least (limit : nat) (w : weights be)
    (history : list (gmap string float64)) :
  fit_outcome be m x val w0 limit w history ->
  (Nat.min limit 5 <= length history <= limit)%nat.
Proof.
  intros (losses & Htrained & Hle & _ & Hhalt).
  split; [|exact Hle].
  destruct (Nat.lt_ge_cases (length history) limit) as [Hlt|Hge]; [|lia].
  specialize (Hhalt Hlt).
  pose proof (stale_epochs_le_length (keras be) losses) as Hcap.
  rewrite (trained_length _ _ _ _ _ _ _ _ _ Htrained) in Hcap. lia.
Qed.

Lemma trained_losses (j : nat) (w w' : weights be)
    (history : list (gmap string float64)) (losses : list float64)
    (P : float64 -> Prop) :
  trained be m x val j w history losses w' ->
  (forall w1 loss, compute_loss be m val w1 = ok loss -> P loss) ->
  Forall P losses.
Proof. induction 1; intros HP; constructor; eauto. Qed.

Lemma Forall_nan_repeat (losses : list float64) :
  Forall (fun loss => loss = S754_nan) losses ->
  losses = repeat S754_nan (length losses).
Proof. induction 1; cbn [repeat length]; congruence. Qed.

Lemma firstn_repeat_le {A} (a : A) (j n : nat) :
  (j <= n)%nat -> firstn j (repeat a n) = repeat a j.
Proof.
  revert n. induction j as [|j IH]; intros n Hj; [reflexivity|].
  destruct n as [|n]; [lia|]. cbn [repeat firstn]. f_equal. apply IH. lia.
Qed.

Lemma stale_scan_all_nan (best : float64) (run n : nat) :
  stale_scan (Some best) run (repeat S754_nan n) = (Some best, (run + n)%nat).
Proof.
  revert run. induction n as [|n IH]; intros run; cbn [repeat stale_scan].
  - now rewrite Nat.add_0_r.
  - change (is_improvement S754_nan (Some best)) with false. cbv iota.
    rewrite IH. f_equal. lia.
Qed.

(** On losses that are all NaN: under Keras 2 none improves; under Keras 3
    the first does, there being nothing before it, and no other. *)
Lemma stale_epochs_all_nan (v : keras_version) (n : nat) :
  stale_epochs v (repeat S754_nan n) = (S n - (diverged_span v - 4))%nat.
Proof.
  unfold stale_epochs. destruct v; cbn [initial_best diverged_span].
  - rewrite stale_scan_all_nan. cbn [snd]. lia.
  - destruct n as [|n]; [reflexivity|].
    cbn [repeat stale_scan is_improvement].
    rewrite stale_scan_all_nan. cbn [snd]. lia.
Qed.

(** If the validation loss is NaN after every epoch, training lasts the
    span of the release, if that many epochs are allowed. *)
Lemma fit_outcome_diverged (limit : nat) (w : weights be)
    (history : list (gmap string float64)) :
  fit_outcome be m x val w0 limit w history ->
  (forall w1 loss, compute_loss be m val w1 = ok loss -> loss = S754_nan) ->
  length history = Nat.min limit (diverged_span (keras be)).
Proof.
  intros (losses & Htrained & Hle & Hgo & Hhalt) Hnan.
  pose proof (trained_length _ _ _ _ _ _ _ _ _ Htrained) as Hlen.
  pose proof (Forall_nan_repeat losses
                (trained_losses _ _ _ _ _ _ Htrained Hnan)) as Hall.
  set (span := diverged_span (keras be)).
  assert (Hspan : (5 <= span <= 6)%nat)
    by (unfold span; destruct (keras be); cbn; lia).
  destruct (Nat.lt_ge_cases (length history) limit) as [Hlt|Hge].
  - specialize (Hhalt Hlt). rewrite Hall, stale_epochs_all_nan in Hhalt.
    fold span in Hhalt.
    destruct (Nat.le_gt_cases (length history) span) as [Hsmall|Hbig];
      [lia|].
    specialize (Hgo span ltac:(lia)).
    rewrite Hall, firstn_repeat_le, stale_epochs_all_nan in Hgo by lia.
    fold span in Hgo. lia.
  - destruct (Nat.le_gt_cases (length history) span) as [Hsmall|Hbig];
      [lia|].
    specialize (Hgo span ltac:(lia)).
    rewrite Hall, firstn_repeat_le, stale_epochs_all_nan in Hgo by lia.
    fold span in Hgo. lia.
Qed.

End TrainingLength.

(** ** Softmax, over the reals *)

Section Softmax.

Local Open Scope R_scope.

Lemma Rsum_exp_pos (x : list R) : x <> [] -> 0 < Rsum (map exp x).
Proof.
  destruct x as [|a x]; [congruence|]. intros _.
  revert a. induction x as [|b x IH]; intros a; cbn [map Rsum fold_right].
  - pose proof (exp_pos a). lra.
  - pose proof (exp_pos a). specialize (IH b). cbn [map Rsum fold_right] in IH.
    lra.
Qed.

Lemma Rsum_map_div (total : R) (x : list R) :
  Rsum (map (fun v => v / total) x) = Rsum x / total.
Proof.
  induction x as [|a x IH]; cbn [map Rsum fold_right].
  - lra.
  - fold (Rsum (map (fun v => v / total) x)). fold (Rsum x).
    rewrite IH. lra.
Qed.

Lemma softmax_fwd_length (x : list R) : length (softmax_fwd x) = length x.
Proof. unfold softmax_fwd. apply length_map. Qed.

Lemma softmax_fwd_nonneg (x : list R) : Forall (fun v => 0 <= v) (softmax_fwd x).
Proof.
  destruct x as [|a x]; [constructor|].
  pose proof (Rsum_exp_pos (a :: x) ltac:(discriminate)) as Hpos.
  unfold softmax_fwd. apply Forall_map, Forall_forall. intros v _.
  pose proof (exp_pos v).
  apply Rlt_le, Rdiv_lt_0_compat; assumption.
Qed.

Lemma softmax_fwd_sum (x : list R) : x <> [] -> Rsum (softmax_fwd x) = 1.
Proof.
  intros Hne. pose proof (Rsum_exp_pos x Hne) as Hpos.
  unfold softmax_fwd.
  rewrite <- (map_map exp (fun v => v / Rsum (map exp x))).
  rewrite Rsum_map_div. field. lra.
Qed.

Lemma dense_fwd_length (units : Z) (k : nat -> nat -> R) (b : nat -> R)
    (x : list R) :
  length (dense_fwd units k b x) = Z.to_nat units.
Proof. unfold dense_fwd. now rewrite length_map, length_seq. Qed.

(** Whatever feeds it, the function of a dense layer of ten units with
    softmax yields ten non-negative reals that sum to one. *)
Lemma softmax_head (p : Params) (training : option (nat -> bool))
    (hidden : ktensor) (x : list R) :
  let y := forward p training (Apply (Dense 10 (Some softmax) None) hidden) x in
  length y = 10%nat /\ Forall (fun v => 0 <= v) y /\ Rsum y = 1.
Proof.
  cbn [forward layer_fwd activation_fwd].
  set (z := dense_fwd 10 _ _ _).
  assert (Hlen : length z = 10%nat) by apply dense_fwd_length.
  split; [now rewrite softmax_fwd_length|].
  split; [apply softmax_fwd_nonneg|].
  apply softmax_fwd_sum. intros ->. discriminate Hlen.
Qed.

End Softmax.

(** ** Softmax, in [tf.float32] *)

Section Softmax32.

Lemma binary_round_aux_sign (mx ex : Z) (lx : location) :
  sign_clear (binary_round_aux prec32 emax32 false mx ex lx) = true.
Proof.
  unfold binary_round_aux.
  destruct (shr_fexp prec32 emax32 mx ex lx) as [mrs e'].
  destruct (shr_fexp prec32 emax32 _ e' loc_Exact) as [mrs' e''].
  destruct (shr_m mrs') as [|mz|mz]; [reflexivity| |reflexivity].
  destruct (e'' <=? emax32 - prec32); reflexivity.
Qed.

Lemma binary_normalize_sign (mz e : Z) :
  0 <= mz -> sign_clear (binary_normalize prec32 emax32 mz e false) = true.
Proof.
  intros Hm. destruct mz as [|mz|mz]; [reflexivity| |lia].
  unfold binary_normalize, binary_round.
  destruct (shl_align mz e _) as [mz' e']. apply binary_round_aux_sign.
Qed.

Lemma f32_add_sign (x y : float32) :
  sign_clear x = true -> sign_clear y = true ->
  sign_clear (f32_add x y) = true.
Proof.
  destruct x as [[|]|[|]| |[|] mx ex], y as [[|]|[|]| |[|] my ey];
    try discriminate; try reflexivity; intros _ _.
  unfold f32_add, SFadd. apply binary_normalize_sign. cbn [cond_Zopp]. lia.
Qed.

Lemma f32_mul_sign (x y : float32) :
  sign_clear x = true -> sign_clear y = true ->
  sign_clear (f32_mul x y) = true.
Proof.
  destruct x as [[|]|[|]| |[|] mx ex], y as [[|]|[|]| |[|] my ey];
    try discriminate; try reflexivity; intros _ _.
  unfold f32_mul, SFmul. apply binary_round_aux_sign.
Qed.

Lemma f32_inverse_sign (y : float32) :
  sign_clear y = true -> sign_clear (f32_div f32_one y) = true.
Proof.
  change f32_one with (S754_finite false 8388608 (-23)).
  destruct y as [[|]|[|]| |[|] my ey];
    try discriminate; try reflexivity; intros _.
  unfold f32_div, SFdiv.
  destruct (SFdiv_core_binary prec32 emax32 _ _ _ _) as [[mz ez] lz].
  apply binary_round_aux_sign.
Qed.

Lemma square_times_nonneg (k : nat) (y : Z) :
  0 <= y -> 0 <= square_times k y.
Proof.
  revert y. induction k as [|k IH]; intros y Hy; cbn [square_times].
  - exact Hy.
  - apply IH. apply Z.div_pos; [nia|]. apply Z.pow_pos_nonneg; lia.
Qed.

Lemma square_times_S_nonneg (k : nat) (y : Z) : 0 <= square_times (S k) y.
Proof.
  cbn [square_times]. apply square_times_nonneg.
  apply Z.div_pos; [nia|]. apply Z.pow_pos_nonneg; lia.
Qed.

(** The exponential is never negative. *)
Lemma f32_exp_sign (x : float32) : sign_clear (f32_exp x) = true.
Proof.
  destruct x as [s|[|]| |s mx ex]; try reflexivity.
  unfold f32_exp. cbv zeta.
  repeat match goal with
         | |- sign_clear (if ?c then _ else _) = true =>
             destruct c; [reflexivity|]
         end.
  apply binary_normalize_sign.
  pose proof (square_times_S_nonneg 6
                (exp_terms 40 0
                   ((if 0 <=? ex then Z.pos mx * 2 ^ ex else Z.pos mx)
                    * 2 ^ 256
                    / ((if 0 <=? ex then 1 else 2 ^ (- ex)) * 2 ^ 7))
                   (2 ^ 256) 0)) as Hy.
  set (y := square_times 7 _) in *.
  destruct s; [|lia].
  assert (0 <= 2 ^ 512 / y); [|lia].
  destruct (Z.eq_dec y 0) as [->|Hne].
  - rewrite Z.div_0_r. lia.
  - apply Z.div_pos; [|lia]. apply Z.pow_nonneg. lia.
Qed.

Lemma f32_sum_sign (l : list float32) :
  Forall (fun v => sign_clear v = true) l -> sign_clear (f32_sum l) = true.
Proof.
  unfold f32_sum. generalize f32_zero, (eq_refl : sign_clear f32_zero = true).
  induction l as [|v l IH]; intros acc Hacc Hall; cbn [fold_left].
  - exact Hacc.
  - inversion Hall as [|? ? Hv Hl]; subst.
    apply IH; [|exact Hl]. apply f32_add_sign; assumption.
Qed.

Lemma softmax32_length (x : list float32) :
  length (softmax32 x) = length x.
Proof.
  destruct x as [|x0 x]; [reflexivity|].
  unfold softmax32. now rewrite !length_map.
Qed.

(** No output of the softmax is negative. *)
Lemma softmax32_sign (x : list float32) :
  Forall (fun v => sign_clear v = true) (softmax32 x).
Proof.
  destruct x as [|x0 x]; [constructor|].
  unfold softmax32.
  set (e := map _ (x0 :: x)).
  assert (He : Forall (fun v => sign_clear v = true) e).
  { apply Forall_map, Forall_forall. intros v _. apply f32_exp_sign. }
  pose proof He as Hin. rewrite Forall_forall in Hin.
  apply Forall_map, Forall_forall. intros v Hv.
  apply f32_mul_sign; [apply Hin, Hv|].
  apply f32_inverse_sign, f32_sum_sign, He.
Qed.

Lemma dense32_length (units : Z) (k : nat -> nat -> float32)
    (b : nat -> float32) (x : list float32) :
  length (dense32 units k b x) = Z.to_nat units.
Proof. unfold dense32. now rewrite length_map, length_seq. Qed.

(** Whatever feeds it, a dense layer of ten units with softmax puts out
    ten floats, none of them negative. *)
Lemma softmax32_head (p : Params32) (hidden : ktensor) (x : list float32) :
  let y := forward32 p (Apply (Dense 10 (Some softmax) None) hidden) x in
  length y = 10%nat /\ Forall (fun v => sign_clear v = true) y.
Proof.
  cbn [forward32 layer32 activation32].
  split; [|apply softmax32_sign].
  now rewrite softmax32_length, dense32_length.
Qed.

End Softmax32.

(** ** [main] *)

Lemma unpack_four_inv (r : pyobj) (train dev test : Dataset)
    (info : DatasetInfo) :
  unpack_four r = ok (train, dev, test, info) ->
  r = PyTuple [PyDataset train; PyDataset dev; PyDataset test; PyInfo info].
Proof.
  unfold unpack_four. intros Hrun.
  repeat match type of Hrun with
         | context [match ?v with _ => _ end] =>
             destruct v; try discriminate Hrun
         end.
  injection Hrun as <- <- <- <-. reflexivity.
Qed.

(** A run of [main] that returns: every call on its way returned, and the
    run fitted, evaluated and printed, in this order. *)
Lemma main_inv (be : Backend) (cat : gmap string dataset_source)
    (hp : HyperParams) (trace : list event) :
  main be cat hp = (trace, ok tt) ->
  exists train dev test info m0 w0 w history test_loss test_acc,
    prepare_data cat hp
    = ok (PyTuple [PyDataset train; PyDataset dev; PyDataset test;
                   PyInfo info])
    /\ build_model info hp = ok m0
    /\ initial_weights be m0 = ok w0
    /\ keras_fit be (script_compile m0) w0 train (epochs hp) dev
         [EarlyStopping "val_loss" 5]
       = ok (w, history)
    /\ keras_evaluate be (script_compile m0) w test
       = ok [test_loss; test_acc]
    /\ trace
       = [EvFit (script_compile m0) train (epochs hp) dev
            [EarlyStopping "val_loss" 5] history;
          EvEvaluate (script_compile m0) test [test_loss; test_acc];
          EvPrint [PStr "test loss, test acc:"; PFloat test_loss;
                   PFloat test_acc]].
Proof.
  unfold main. intros Hrun.
  destruct (prepare_data cat hp) as [e|r] eqn:Hdata;
    cbn [lift mbind emit mret app ok raise] in Hrun; [discriminate Hrun|].
  destruct (unpack_four r) as [e|[[[train dev] test] info]] eqn:Hunpack;
    cbn [lift mbind emit mret app ok raise] in Hrun; [discriminate Hrun|].
  apply unpack_four_inv in Hunpack as ->.
  destruct (build_model info hp) as [e|m0] eqn:Hbuild;
    cbn [lift mbind emit mret app ok raise] in Hrun; [discriminate Hrun|].
  destruct (initial_weights be m0) as [e|w0] eqn:Hinit;
    cbn [lift mbind emit mret app ok raise] in Hrun; [discriminate Hrun|].
  cbv zeta in Hrun. fold (script_compile m0) in Hrun.
  unfold model_fit, model_evaluate in Hrun.
  destruct (keras_fit be (script_compile m0) w0 train (epochs hp) dev _)
    as [e|[w history]] eqn:Hfit;
    cbn [lift mbind emit mret app ok raise] in Hrun; [discriminate Hrun|].
  destruct (keras_evaluate be (script_compile m0) w test)
    as [e|results] eqn:Heval;
    cbn [lift mbind emit mret app ok raise] in Hrun; [discriminate Hrun|].
  destruct results as [|test_loss [|test_acc [|more results]]];
    cbn [lift mbind emit mret app print raise ok] in Hrun;
    try discriminate Hrun.
  injection Hrun as <-.
  exists train, dev, test, info, m0, w0, w, history, test_loss, test_acc.
  repeat split; assumption.
Qed.

Section Run.

Variables (be : Backend) (cat : gmap string dataset_source).
Variables (hp : HyperParams) (b : Builder) (tr te : list example).

Hypothesis Hcat : cat !! "mnist" = Some (Prepared b).
Hypothesis Htrain : b_examples b !! "train" = Some tr.
Hypothesis Htest : b_examples b !! "test" = Some te.

Local Notation "'train'" := (train_pipeline hp tr).
Local Notation "'dev'" := (dev_pipeline hp tr).
Local Notation "'test'" := (test_pipeline hp te).
Local Notation "'accuracy'" := (SparseCategoricalAccuracy "accuracy").
Local Notation "'stop_early'" := (EarlyStopping "val_loss" 5).

(** The same over a known dataset: the pipelines, the network and the
    training are the ones described. *)
Lemma main_runs (trace : list event) :
  main be cat hp = (trace, ok tt) ->
  exists image hidden w0 w history test_loss test_acc,
    let m0 := keras_Model (Input (shape image))
                (Apply (Dense 10 (Some softmax) None) hidden) in
    let m := script_compile m0 in
    prepare_data cat hp = ok (prepared hp b tr te)
    /\ b_features b !! "image" = Some image
    /\ build_model (builder_info b) hp = ok m0
    /\ Forall (fun width => 0 <= width) (hidden_layers hp)
    /\ layers_of hidden
       = (Flatten
          :: map (fun width => Dense width (Some relu) (Some l2))
               (hidden_layers hp)
          ++ [Dropout 0.5])%list
    /\ input_of hidden = Input (shape image)
    /\ initial_weights be m0 = ok w0
    /\ keras_fit be m w0 train (epochs hp) dev [stop_early] = ok (w, history)
    /\ fit_outcome be m train dev w0 (Z.to_nat (epochs hp)) w history
    /\ keras_evaluate be m w test = ok [test_loss; test_acc]
    /\ compute_loss be m test w = ok test_loss
    /\ compute_metric be m accuracy test w = ok test_acc
    /\ trace
       = [EvFit m train (epochs hp) dev [stop_early] history;
          EvEvaluate m test [test_loss; test_acc];
          EvPrint [PStr "test loss, test acc:"; PFloat test_loss;
                   PFloat test_acc]].
Proof.
  intros Hrun.
  destruct (main_inv be cat hp trace Hrun)
    as (train' & dev' & test' & info & m0 & w0 & w & history & test_loss
        & test_acc & Hdata & Hbuild & Hinit & Hfit & Heval & ->).
  pose proof (prepare_data_inv cat hp b tr te Hcat Htrain Htest _ Hdata)
    as (_ & _ & _ & Hr).
  unfold prepared in Hr. injection Hr as -> -> -> ->.
  destruct (build_model_inv _ _ _ Hbuild)
    as (image & hidden & Himage & Hall & -> & Hlayers & Hinput).
  exists image, hidden, w0, w, history, test_loss, test_acc. cbv zeta.
  split; [exact Hdata|]. split; [exact Himage|].
  split; [exact Hbuild|]. split; [exact Hall|].
  split; [exact Hlayers|]. split; [exact Hinput|].
  split; [exact Hinit|]. split; [exact Hfit|].
  split; [apply keras_fit_outcome; [reflexivity|exact Hfit]|].
  split; [exact Heval|].
  eapply keras_evaluate_inv in Heval
    as (loss & acc & Hres & Hloss & Hacc); [|reflexivity].
  injection Hres as -> ->.
  repeat split; assumption.
Qed.

(** C2: whenever [main] returns, the model it has built, and then trained
    and evaluated, is a chain from the input placeholder, of the shape of
    the dataset's images, through a flatten layer, one dense layer with
    ReLU and L2 kernel regularization per entry of [hp.hidden_layers], of
    that width and in that order, a dropout layer of rate 0.5, and a dense
    layer of 10 units with softmax.  No width is negative then. *)
Theorem main_builds_described_network (trace : list event) :
  main be cat hp = (trace, ok tt) ->
  exists m0 image,
    b_features b !! "image" = Some image
    /\ build_model (builder_info b) hp = ok m0
    /\ (exists ev, In ev trace /\ event_model ev = Some (script_compile m0))
    /\ Forall (fun ev => forall m', event_model ev = Some m' ->
                                    m' = script_compile m0) trace
    /\ inputs m0 = Input (shape image)
    /\ input_of (outputs m0) = inputs m0
    /\ model_layers m0
       = (Flatten
          :: map (fun width => Dense width (Some relu) (Some l2))
               (hidden_layers hp)
          ++ [Dropout 0.5; Dense 10 (Some softmax) None])%list
    /\ Forall (fun width => 0 <= width) (hidden_layers hp).
Proof.
  intros Hrun.
  destruct (main_runs trace Hrun)
    as (image & hidden & w0 & w & history & test_loss & test_acc
        & _ & Himage & Hbuild & Hall & Hlayers & Hinput & _ & _ & _ & _
        & _ & _ & ->).
  cbv zeta in *.
  eexists _, image. split; [exact Himage|]. split; [exact Hbuild|].
  cbn [inputs outputs keras_Model].
  split; [eexists; split; [left; reflexivity|reflexivity]|].
  split.
  { repeat constructor; cbn [event_model]; congruence. }
  split; [reflexivity|]. split; [exact Hinput|].
  split; [|exact Hall].
  unfold model_layers; cbn [outputs keras_Model layers_of].
  rewrite Hlayers.
  cbn [app]. now rewrite <- app_assoc.
Qed.



(** C8: whenever [main] returns, after the call to [fit] it has evaluated
    the model, in the state [fit] left it in, on the test pipeline, whose
    examples are the stored test split, and has made its one call of
    [print], with the label and the loss and accuracy that the evaluation
    returned.  (The progress lines that Keras writes while it fits and
    evaluates are not part of the trace.)  The script runs [main] on
    [HyperParams(100, 20, [100, 100])] whatever its command line.
    The stored training split is taken to hold fewer than 2^53 examples,
    for which the boundary the library computes in binary64 is the exact
    one. *)
Theorem main_reports_test_results (trace : list event) :
  Z.of_nat (length tr) < 2 ^ 53 ->
  main be cat hp = (trace, ok tt) ->
  exists m0 w0 w history test_loss test_acc,
    let m := script_compile m0 in
    trace
    = [EvFit m train (epochs hp) dev [EarlyStopping "val_loss" 5] history;
       EvEvaluate m test [test_loss; test_acc];
       EvPrint [PStr "test loss, test acc:"; PFloat test_loss;
                PFloat test_acc]]
    /\ keras_fit be m w0 train (epochs hp) dev [EarlyStopping "val_loss" 5]
       = ok (w, history)
    /\ keras_evaluate be m w test = ok [test_loss; test_acc]
    /\ compute_loss be m test w = ok test_loss
    /\ compute_metric be m accuracy test w = ok test_acc
    /\ ds_examples test = te
    /\ (forall argv,
          script be cat argv
          = main be cat {| batch_size := 100; epochs := 20;
                           hidden_layers := [100; 100] |}).
Proof.
  intros _ Hrun.
  destruct (main_runs trace Hrun)
    as (image & hidden & w0 & w & history & test_loss & test_acc
        & _ & _ & _ & _ & _ & _ & _ & Hfit & _ & Heval & Hloss & Hacc & ->).
  cbv zeta in *.
  eexists _, w0, w, history, test_loss, test_acc.
  split; [reflexivity|]. split; [exact Hfit|]. split; [exact Heval|].
  split; [exact Hloss|]. split; [exact Hacc|].
  split; [|reflexivity].
  unfold test_pipeline.
  cbn [ds_examples ds_prefetch ds_cache ds_map ds_apply loaded].
  apply slice_whole.
Qed.

(** X7: whenever [main] returns, early stopping has not cut training
    shorter than its patience: the call to [fit] ran at least 5 epochs, or
    all [hp.epochs] of them if that is fewer, and never more than
    [hp.epochs]. *)
Theorem main_trains_at_least_patience (trace : list event) :
  main be cat hp = (trace, ok tt) ->
  exists n,
    epochs_run trace = Some n
    /\ (Nat.min (Z.to_nat (epochs hp)) 5 <= n <= Z.to_nat (epochs hp))%nat.
Proof.
  intros Hrun.
  destruct (main_runs trace Hrun)
    as (image & hidden & w0 & w & history & test_loss & test_acc
        & _ & _ & _ & _ & _ & _ & _ & _ & Hout & _ & _ & _ & ->).
  cbv zeta in *. cbn [epochs_run].
  eexists. split; [reflexivity|].
  exact (fit_outcome_at_least _ _ _ _ _ _ _ _ Hout).
Qed.

(** X9: whenever [main] returns and every loss the engine computes on the
    dev pipeline is NaN, training has lasted 5 epochs under Keras 2 and 6
    under Keras 3, where the first NaN counts as an improvement on
    nothing, or all [hp.epochs] epochs if that is fewer.
    The stored training split is taken to hold fewer than 2^53 examples,
    for which the boundary the library computes in binary64 is the exact
    one. *)
Theorem main_halts_when_diverged (trace : list event) :
  Z.of_nat (length tr) < 2 ^ 53 ->
  (forall m w loss, compute_loss be m dev w = ok loss -> loss = S754_nan) ->
  main be cat hp = (trace, ok tt) ->
  epochs_run trace
  = Some (Nat.min (Z.to_nat (epochs hp)) (diverged_span (keras be))).
Proof.
  intros _ Hnan Hrun.
  destruct (main_runs trace Hrun)
    as (image & hidden & w0 & w & history & test_loss & test_acc
        & _ & _ & _ & _ & _ & _ & _ & _ & Hout & _ & _ & _ & ->).
  cbv zeta in *. cbn [epochs_run].
  f_equal. apply (fit_outcome_diverged _ _ _ _ _ _ _ _ Hout).
  intros w1 loss. apply Hnan.
Qed.

(** X10: whenever [main] returns with [hp.epochs] zero or negative, no
    epoch has run, and what it has evaluated and printed is the model as
    it was initialized.
    The stored training split is taken to hold fewer than 2^53 examples,
    for which the boundary the library computes in binary64 is the exact
    one. *)
Theorem main_without_epochs (trace : list event) :
  Z.of_nat (length tr) < 2 ^ 53 ->
  epochs hp <= 0 ->
  main be cat hp = (trace, ok tt) ->
  exists m0 w0 test_loss test_acc,
    build_model (builder_info b) hp = ok m0
    /\ initial_weights be m0 = ok w0
    /\ compute_loss be (script_compile m0) test w0 = ok test_loss
    /\ compute_metric be (script_compile m0) accuracy test w0 = ok test_acc
    /\ trace
       = [EvFit (script_compile m0) train (epochs hp) dev
            [EarlyStopping "val_loss" 5] [];
          EvEvaluate (script_compile m0) test [test_loss; test_acc];
          EvPrint [PStr "test loss, test acc:"; PFloat test_loss;
                   PFloat test_acc]].
Proof.
  intros _ Hzero Hrun.
  destruct (main_runs trace Hrun)
    as (image & hidden & w0 & w & history & test_loss & test_acc
        & _ & _ & Hbuild & _ & _ & _ & Hinit & _ & Hout & _ & Hloss & Hacc
        & ->).
  cbv zeta in *.
  destruct Hout as (losses & Htrained & Hle & _).
  assert (Hnil : history = []).
  { apply length_zero_iff_nil. lia. }
  subst history.
  apply trained_nil in Htrained as [-> _].
  eexists _, w0, test_loss, test_acc.
  split; [exact Hbuild|]. split; [exact Hinit|].
  split; [exact Hloss|]. split; [exact Hacc|]. reflexivity.
Qed.

(** X11: whenever [main] returns, the datasets it has handed to [fit], for
    training and for validation, read positions of the stored train split
    only, and the dataset it has handed to [evaluate] reads positions of
    the stored test split only: no example is both trained or validated on
    and tested on.
    The stored training split is taken to hold fewer than 2^53 examples,
    for which the boundary the library computes in binary64 is the exact
    one. *)
Theorem main_keeps_test_data_apart (trace : list event) :
  Z.of_nat (length tr) < 2 ^ 53 ->
  main be cat hp = (trace, ok tt) ->
  exists m x n v cbs history y results rest,
    trace = EvFit m x n v cbs history :: EvEvaluate m y results :: rest
    /\ (forall s i, reads x s i \/ reads v s i -> s = "train")
    /\ (forall s i, reads y s i -> s = "test")
    /\ (forall s i, ~ ((reads x s i \/ reads v s i) /\ reads y s i)).
Proof.
  intros _ Hrun.
  destruct (main_runs trace Hrun)
    as (image & hidden & w0 & w & history & test_loss & test_acc
        & _ & _ & _ & _ & _ & _ & _ & _ & _ & _ & _ & _ & ->).
  cbv zeta in *. do 9 eexists. split; [reflexivity|].
  unfold reads, train_pipeline, dev_pipeline, test_pipeline.
  cbn [ds_instr ds_prefetch ds_cache ds_map ds_apply
       loaded ai_split ai_from ai_to].
  repeat split.
  - intros s i [[Hs _]|[Hs _]]; congruence.
  - intros s i [Hs _]; congruence.
  - intros s i [[[Hs _]|[Hs _]] [Hs' _]]; congruence.
Qed.

End Run.

(** ** The statements about [main] on the sample catalog and engines *)

Lemma returns_from_snd {A} (c : M A) (a : A) :
  snd c = ok a -> c = (fst c, ok a).
Proof. destruct c as [trace r]. cbn [fst snd]. intros ->. reflexivity. Qed.

Lemma sample_run (v : keras_version) :
  main (sample_backend v) sample_catalog sample_hp = (sample_trace v, ok tt).
Proof.
  unfold sample_trace.
  destruct v; apply returns_from_snd; vm_compute; reflexivity.
Qed.

Lemma diverged_run (v : keras_version) :
  main (diverged_backend v) sample_catalog sample_hp
  = (diverged_trace v, ok tt).
Proof.
  unfold diverged_trace.
  destruct v; apply returns_from_snd; vm_compute; reflexivity.
Qed.

Lemma sample_run_without_epochs :
  main (sample_backend Keras3) sample_catalog sample_hp_no_epochs
  = (fst (main (sample_backend Keras3) sample_catalog sample_hp_no_epochs),
     ok tt).
Proof.
  apply returns_from_snd. vm_compute. reflexivity.
Qed.

Lemma main_builds_described_network_witness :
  (sample_ready
   /\ main (sample_backend Keras3) sample_catalog sample_hp
      = (sample_trace Keras3, ok tt))
  /\ exists m0,
       build_model (builder_info sample_builder) sample_hp = ok m0
       /\ model_layers m0
          = [Flatten; Dense 100 (Some relu) (Some l2);
             Dense 100 (Some relu) (Some l2); Dropout 0.5;
             Dense 10 (Some softmax) None].
Proof.
  split; [split; [repeat split|apply sample_run]|].
  destruct (main_builds_described_network (sample_backend Keras3)
              sample_catalog sample_hp sample_builder sample_train
              sample_test eq_refl eq_refl eq_refl _ (sample_run Keras3))
    as (m0 & image & _ & Hbuild & _ & _ & _ & _ & Hlayers & _).
  exists m0. split; assumption.
Defined.




Lemma main_reports_test_results_witness :
  (sample_ready
   /\ Z.of_nat (length sample_train) < 2 ^ 53
   /\ main (sample_backend Keras3) sample_catalog sample_hp
      = (sample_trace Keras3, ok tt))
  /\ exists fit_event m test_loss test_acc,
       sample_trace Keras3
       = [fit_event;
          EvEvaluate m (test_pipeline sample_hp sample_test)
            [test_loss; test_acc];
          EvPrint [PStr "test loss, test acc:"; PFloat test_loss;
                   PFloat test_acc]].
Proof.
  split; [split; [repeat split|split; [apply sample_size|apply sample_run]]|].
  destruct (main_reports_test_results (sample_backend Keras3)
              sample_catalog sample_hp sample_builder sample_train
              sample_test eq_refl eq_refl eq_refl _ sample_size
              (sample_run Keras3))
    as (m0 & w0 & w & history & test_loss & test_acc & Htrace & _).
  eexists _, _, test_loss, test_acc. exact Htrace.
Defined.

Lemma main_trains_at_least_patience_witness :
  (sample_ready
   /\ main (sample_backend Keras3) sample_catalog sample_hp
      = (sample_trace Keras3, ok tt))
  /\ exists n,
       epochs_run (sample_trace Keras3) = Some n /\ (5 <= n <= 20)%nat.
Proof.
  split; [split; [repeat split|apply sample_run]|].
  exact (main_trains_at_least_patience (sample_backend Keras3)
           sample_catalog sample_hp sample_builder sample_train
           sample_test eq_refl eq_refl eq_refl _ (sample_run Keras3)).
Defined.

Lemma diverged_losses (v : keras_version) (m : Model) (d : Dataset)
    (w : weights (diverged_backend v)) (loss : float64) :
  compute_loss (diverged_backend v) m d w = ok loss -> loss = S754_nan.
Proof. intros Hloss. injection Hloss as <-. reflexivity. Qed.

Lemma main_halts_when_diverged_witness :
  (sample_ready
   /\ Z.of_nat (length sample_train) < 2 ^ 53
   /\ (forall m w loss,
         compute_loss (diverged_backend Keras3) m
           (dev_pipeline sample_hp sample_train) w
         = ok loss ->
         loss = S754_nan)
   /\ main (diverged_backend Keras3) sample_catalog sample_hp
      = (diverged_trace Keras3, ok tt))
  /\ epochs_run (diverged_trace Keras3) = Some 6%nat.
Proof.
  split; [split; [repeat split|split; [apply sample_size|split]]|].
  - intros m w loss. apply diverged_losses.
  - apply diverged_run.
  - exact (main_halts_when_diverged (diverged_backend Keras3)
             sample_catalog sample_hp sample_builder sample_train
             sample_test eq_refl eq_refl eq_refl _ sample_size
             (fun m w loss => diverged_losses Keras3 m _ w loss)
             (diverged_run Keras3)).
Defined.

Lemma main_without_epochs_witness :
  (sample_ready
   /\ Z.of_nat (length sample_train) < 2 ^ 53
   /\ epochs sample_hp_no_epochs <= 0
   /\ main (sample_backend Keras3) sample_catalog sample_hp_no_epochs
      = (fst (main (sample_backend Keras3) sample_catalog
                sample_hp_no_epochs),
         ok tt))
  /\ epochs_run
       (fst (main (sample_backend Keras3) sample_catalog
               sample_hp_no_epochs))
     = Some 0%nat.
Proof.
  assert (Hzero : epochs sample_hp_no_epochs <= 0) by (cbn; lia).
  split; [split; [repeat split|];
          split; [apply sample_size|];
          split; [exact Hzero|apply sample_run_without_epochs]|].
  destruct (main_without_epochs (sample_backend Keras3) sample_catalog
              sample_hp_no_epochs sample_builder sample_train sample_test
              eq_refl eq_refl eq_refl _ sample_size Hzero
              sample_run_without_epochs)
    as (m0 & w0 & test_loss & test_acc & _ & _ & _ & _ & Htrace).
  rewrite Htrace. reflexivity.
Defined.

Lemma main_keeps_test_data_apart_witness :
  (sample_ready
   /\ Z.of_nat (length sample_train) < 2 ^ 53
   /\ main (sample_backend Keras3) sample_catalog sample_hp
      = (sample_trace Keras3, ok tt))
  /\ exists x v y,
       (exists m n cbs history results rest,
          sample_trace Keras3
          = EvFit m x n v cbs history :: EvEvaluate m y results :: rest)
       /\ (forall s i, ~ ((reads x s i \/ reads v s i) /\ reads y s i)).
Proof.
  split; [split; [repeat split|split; [apply sample_size|apply sample_run]]|].
  destruct (main_keeps_test_data_apart (sample_backend Keras3)
              sample_catalog sample_hp sample_builder sample_train
              sample_test eq_refl eq_refl eq_refl _ sample_size
              (sample_run Keras3))
    as (m & x & n & v & cbs & history & y & results & rest
        & Htrace & _ & _ & Hapart).
  exists x, v, y. split; [|exact Hapart].
  exists m, n, cbs, history, results, rest. exact Htrace.
Defined.

(** On the sample engine the loss stops improving after the sixth epoch,
    and training halts after the eleventh, short of the 20 allowed, under
    either release. *)
Example sample_run_halts_early (v : keras_version) :
  epochs_run (sample_trace v) = Some 11%nat.
Proof. destruct v; vm_compute; reflexivity. Qed.

(** On the engine whose loss is NaN, training lasts five epochs under
    Keras 2 and six under Keras 3. *)
Example diverged_run_halts :
  epochs_run (diverged_trace Keras2) = Some 5%nat
  /\ epochs_run (diverged_trace Keras3) = Some 6%nat.
Proof. split; vm_compute; reflexivity. Qed.
